(* Shallow embedding of the ATS node executor (ats_node_test package):
   flash_esp32.py, hardware.py and executor.py, as far as the boot-evidence,
   flashing, capture, invocation and orchestration logic goes. *)

From Stdlib Require Import String Ascii ZArith QArith Bool Lia.
From stdpp Require Import base gmap strings list.

Open Scope Z_scope.

(* ------------------------------------------------------------------ *)
(** * Python text values                                               *)
(* ------------------------------------------------------------------ *)

(** A Python [str] is a sequence of Unicode code points. *)
Abbreviation pystr := (list Z).

(** Code points of an ASCII literal, for writing Python literals. *)
Fixpoint of_ascii (s : string) : pystr :=
  match s with
  | EmptyString => []
  | String c r => Z.of_nat (nat_of_ascii c) :: of_ascii r
  end.

Fixpoint starts_with (pat s : pystr) : bool :=
  match pat, s with
  | [], _ => true
  | p :: pat', c :: s' => (p =? c) && starts_with pat' s'
  | _ :: _, [] => false
  end.

(** Python's [pat in s] for strings. *)
Fixpoint contains (pat s : pystr) : bool :=
  starts_with pat s ||
  match s with
  | [] => false
  | _ :: s' => contains pat s'
  end.

(** Python truthiness of a [str]. *)
Definition truthy (s : pystr) : bool :=
  match s with [] => false | _ => true end.

(** [[p for p in pats if p in s]] is non-empty. *)
Definition any_in (pats : list pystr) (s : pystr) : bool :=
  existsb (fun p => contains p s) pats.

(* ------------------------------------------------------------------ *)
(** * Files: text-mode open/read/write                                 *)
(* ------------------------------------------------------------------ *)

Module Files.

(** A file as seen by [open(path, 'r')]: readable UTF-8 text, content that
    fails UTF-8 decoding, or a file the process may not open at all. *)
Inductive file :=
| FText (s : pystr)
| FUndecodable
| FNoAccess.

Abbreviation fsys := (gmap string file).

(** Universal-newlines translation done by Python's text-mode read
    ([newline=None]): ["\r\n"] and a lone ["\r"] both become ["\n"]. *)
Fixpoint univ_nl (s : pystr) : pystr :=
  match s with
  | [] => []
  | c :: r =>
      if c =? 13 then
        match r with
        | d :: r' => if d =? 10 then 10 :: univ_nl r' else 10 :: univ_nl r
        | [] => [10]
        end
      else c :: univ_nl r
  end.

(** [with open(p, 'r') as f: f.read()]: [None] when it raises. *)
Definition read_file (fs : fsys) (p : string) : option pystr :=
  match fs !! p with
  | Some (FText s) => Some (univ_nl s)
  | _ => None
  end.

(** [with open(p, 'w') as f: f.write(s)]: truncates and rewrites;
    [None] when the open raises. *)
Definition write_file (fs : fsys) (p : string) (s : pystr) : option fsys :=
  match fs !! p with
  | Some FNoAccess => None
  | _ => Some (<[p := FText s]> fs)
  end.

(** Boot Evidence Store, save: executor.py main, lines 731-734:
    [with open(boot_messages_file, 'w') as f: f.write(boot_data); f.write('\n')]. *)
Definition save_evidence (fs : fsys) (p : string) (boot_data : pystr) : option fsys :=
  write_file fs p (boot_data ++ [10]).

(** Boot Evidence Store, load: run_test_runner, lines 119-121. *)
Definition load_evidence (fs : fsys) (p : string) : option pystr :=
  read_file fs p.

End Files.

(* ------------------------------------------------------------------ *)
(** * Firmware Flasher: flash_esp32.flash_firmware                     *)
(* ------------------------------------------------------------------ *)

Module Flasher.

(** Outcome of one [subprocess.run(cmd, check=True, ...)] of esptool.py:
    exit 0, [CalledProcessError] carrying its stderr, or any other exception
    (e.g. the tool cannot be launched), which is not caught. *)
Inductive tool_outcome :=
| ToolOk
| ToolFail (stderr : pystr)
| ToolRaise.

(** Outcome of the pre-check [with serial.Serial(port, 115200, timeout=0.5)]. *)
Inductive precheck :=
| PreOk
| PreRaise (msg : pystr).

Inductive fev :=
| EvHint                  (* a diagnostic hint printed to stderr *)
| EvTool (attempt : nat)  (* esptool.py subprocess started *)
| EvRecover               (* hardware.try_reset_serial_port(port) called *)
| EvSleep.                (* time.sleep(2) *)

Definition max_attempts : nat := 3.

(** [is_port_error], lines 92-95. *)
Definition is_port_error (stderr : pystr) : bool :=
  contains (of_ascii "could not open") stderr
  || contains (of_ascii "Errno 5") stderr
  || contains (of_ascii "Input/output error") stderr
  || contains (of_ascii "port is busy") stderr.

(** The retry loop [for attempt in range(1, max_attempts + 1)], lines 80-104.
    [k] is the number of loop iterations left, [tool n] the outcome of the
    n-th subprocess call and [recover_ok] the result of
    [try_reset_serial_port(port)].  The result is [Some b] for [return b] and
    [None] when an exception escapes; the trace lists the side effects. *)
Fixpoint retry_loop (k attempt : nat) (tool : nat -> tool_outcome)
    (recover_ok : bool) : option bool * list fev :=
  match k with
  | O => (Some false, [])               (* loop exhausted: lines 106-112 *)
  | S k' =>
      match tool attempt with
      | ToolOk => (Some true, [EvTool attempt])
      | ToolRaise => (None, [EvTool attempt])
      | ToolFail err =>
          let pe := is_port_error err in
          (* [continue]: the side effects [pre], then the next iteration *)
          let continue_ (pre : list fev) :=
            let '(r, tr) := retry_loop k' (S attempt) tool recover_ok in
            (r, EvTool attempt :: pre ++ tr) in
          if pe && Nat.eqb attempt 1 then
            (* if try_reset_serial_port(port): time.sleep(2); continue *)
            if recover_ok then continue_ [EvRecover; EvSleep]
            else if Nat.ltb attempt max_attempts && pe
            then continue_ [EvRecover; EvSleep]
            else (Some false, [EvTool attempt; EvRecover])
          else if Nat.ltb attempt max_attempts && pe then continue_ [EvSleep]
          else (Some false, [EvTool attempt])          (* break *)
      end
  end.

(** [if not port: port = detect_esp32_port()], lines 34-35. *)
Definition resolve_port (port_arg detected : option string) : option string :=
  match port_arg with
  | Some p => if String.eqb p "" then detected else Some p
  | None => detected
  end.

(** [flash_firmware(firmware_path, port)], lines 32-112.
    [port_arg] is the [port] argument, [detected] what
    [detect_esp32_port()] returns, [fw_exists] is [os.path.exists(firmware_path)],
    [pre] the outcome of the serial pre-check (lines 48-59). *)
Definition flash_firmware (port_arg detected : option string) (fw_exists : bool)
    (pre : precheck) (tool : nat -> tool_outcome) (recover_ok : bool)
    : option bool * list fev :=
  match resolve_port port_arg detected with
  | None => (Some false, [EvHint])
  | Some p =>
      if String.eqb p "" then (Some false, [EvHint])
      else if negb fw_exists then (Some false, [EvHint])
      else
        let hint :=
          match pre with
          | PreOk => []
          | PreRaise msg =>
              if contains (of_ascii "Errno 5") msg
                 || contains (of_ascii "Input/output error") msg
                 || contains (of_ascii "could not open") msg
              then [EvHint] else []
          end in
        let '(r, tr) := retry_loop max_attempts 1 tool recover_ok in
        (r, hint ++ tr)
  end.

End Flasher.

(* ------------------------------------------------------------------ *)
(** * Boot Capturer: executor.test_uart_read_directly                  *)
(* ------------------------------------------------------------------ *)

Module Capture.

(** Byte values are [Z] in [0, 255]. *)
Definition in_range (lo hi b : Z) : bool := (lo <=? b) && (b <=? hi).
Definition cont (b : Z) : bool := in_range 128 191 b.

(** [bytes.decode('utf-8', errors='ignore')] (CPython's UTF-8 decoder):
    valid sequences become code points; an ill-formed sequence is dropped
    as its maximal valid prefix (at least one byte), as CPython reports it. *)
Fixpoint decode_utf8_ignore (bs : list Z) : pystr :=
  match bs with
  | [] => []
  | b0 :: r0 =>
      if b0 <? 128 then b0 :: decode_utf8_ignore r0
      else if in_range 194 223 b0 then
        match r0 with
        | b1 :: r1 =>
            if cont b1
            then (Z.land b0 31 * 64 + Z.land b1 63) :: decode_utf8_ignore r1
            else decode_utf8_ignore r0
        | [] => []
        end
      else if in_range 224 239 b0 then
        let lo := if b0 =? 224 then 160 else 128 in
        let hi := if b0 =? 237 then 159 else 191 in
        match r0 with
        | b1 :: r1 =>
            if in_range lo hi b1 then
              match r1 with
              | b2 :: r2 =>
                  if cont b2
                  then (Z.land b0 15 * 4096 + Z.land b1 63 * 64 + Z.land b2 63)
                         :: decode_utf8_ignore r2
                  else decode_utf8_ignore r1
              | [] => []
              end
            else decode_utf8_ignore r0
        | [] => []
        end
      else if in_range 240 244 b0 then
        let lo := if b0 =? 240 then 144 else 128 in
        let hi := if b0 =? 244 then 143 else 191 in
        match r0 with
        | b1 :: r1 =>
            if in_range lo hi b1 then
              match r1 with
              | b2 :: r2 =>
                  if cont b2 then
                    match r2 with
                    | b3 :: r3 =>
                        if cont b3
                        then (Z.land b0 7 * 262144 + Z.land b1 63 * 4096
                              + Z.land b2 63 * 64 + Z.land b3 63)
                               :: decode_utf8_ignore r3
                        else decode_utf8_ignore r2
                    | [] => []
                    end
                  else decode_utf8_ignore r1
              | [] => []
              end
            else decode_utf8_ignore r0
        | [] => []
        end
      else decode_utf8_ignore r0
  end.

(** One iteration of the polling loop [while time.time() - start_time < timeout]:
    [ser.in_waiting] (and [ser.read]) deliver [chunk] (empty when
    [in_waiting] is 0), or one of them raises with message [msg]. *)
Inductive poll :=
| PollData (chunk : list Z)
| PollRaise (msg : pystr).

(** The behaviour of the port during one call.  [*_err = Some msg] means the
    call raises an exception whose [str] is [msg]; [polls] has one entry
    per loop iteration before the timeout elapses. *)
Record uart_dev := {
  serial_available : bool;        (* [import serial] succeeds *)
  open_err : option pystr;        (* serial.Serial(port, 115200, timeout) *)
  reset_in_err : option pystr;    (* ser.reset_input_buffer() *)
  reset_out_err : option pystr;   (* ser.reset_output_buffer() *)
  polls : list poll
}.

(** Serial channel events. *)
Inductive port_ev := EOpen | EClose.

(** The loop of lines 58-71: [data += chunk] per iteration. *)
Fixpoint read_loop (ps : list poll) (data : list Z) : pystr + list Z :=
  match ps with
  | [] => inr data
  | PollRaise msg :: _ => inl msg
  | PollData chunk :: ps' => read_loop ps' (data ++ chunk)
  end.

(** [test_uart_read_directly(port, timeout)], lines 37-102: the returned
    [(success, data_str)] and the serial channel events. *)
Definition test_uart_read_directly (d : uart_dev) : (bool * pystr) * list port_ev :=
  if negb (serial_available d) then ((false, []), [])      (* except ImportError *)
  else match open_err d with
  | Some msg => ((false, msg), [])                         (* except Exception *)
  | None =>
    match reset_in_err d with
    | Some msg => ((false, msg), [EOpen])
    | None =>
      match reset_out_err d with
      | Some msg => ((false, msg), [EOpen])
      | None =>
        match read_loop (polls d) [] with
        | inl msg => ((false, msg), [EOpen])
        | inr data =>
            (* ser.close(); data_str = data.decode(...); success = len(data) > 0 *)
            ((negb (Nat.eqb (length data) 0), decode_utf8_ignore data),
             [EOpen; EClose])
        end
      end
    end
  end.

End Capture.

(* ------------------------------------------------------------------ *)
(** * Test Invoker: executor.run_test_runner                            *)
(* ------------------------------------------------------------------ *)

Module Invoker.
Import Files.

Inductive status := PASS | FAIL | SKIP.

(** A test entry [{'name': ..., 'status': ..., 'failure': ...}]; the name is
    always ['test_execution'] in run_test_runner and main. *)
Record test := mk_test { t_status : status; t_failure : pystr }.

(** The finished test-procedure subprocess: [result.returncode],
    [result.stdout], [result.stderr]. *)
Record proc_result := { returncode : Z; stdout : pystr; stderr : pystr }.

(** [subprocess.run([...], capture_output=True, text=True)] returns, or
    raises with message [msg] (caught at line 496). *)
Inductive proc_outcome :=
| ProcDone (r : proc_result)
| ProcRaise (msg : pystr).

Definition failed_marker := of_ascii "UART boot validation FAILED".
Definition passed_marker := of_ascii "UART boot validation PASSED".
Definition passed_alt_marker := of_ascii "boot patterns found in boot_messages.log".

(** The boot patterns of the reconciliation, line 457. *)
Definition reconcile_boot_patterns : list pystr :=
  map of_ascii ["rst:"; "ets Jun"; "ESP-IDF"; "boot:"; "I ("; "E ("; "W ("]%string.

(** Python truthiness of [boot_messages_data] ([None] or a [str]). *)
Definition data_truthy (d : option pystr) : bool :=
  match d with Some s => truthy s | None => false end.

(** Lines 445-495: the outcome of a finished test procedure, given the
    boot evidence [boot_messages_data]. *)
Definition reconcile (boot_messages_data : option pystr) (r : proc_result)
    : list test :=
  let test_failed_uart_validation :=
    negb (returncode r =? 0) && contains failed_marker (stdout r) in
  let test_passed_uart_validation :=
    contains passed_marker (stdout r) || contains passed_alt_marker (stdout r) in
  if test_failed_uart_validation && data_truthy boot_messages_data then
    let ev := match boot_messages_data with Some s => s | None => [] end in
    if any_in reconcile_boot_patterns ev then [mk_test PASS []]
    else [mk_test FAIL (if truthy (stderr r) then stderr r
                        else of_ascii "UART boot validation failed")]
  else if test_passed_uart_validation then [mk_test PASS []]
  else [mk_test (if returncode r =? 0 then PASS else FAIL)
                (if negb (returncode r =? 0) then stderr r else [])].

Definition boot_log_path (results_dir : string) : string :=
  results_dir +:+ "/boot_messages.log".

(** Lines 113-135: the boot evidence [boot_messages_data] and the file
    system after the fallback copy into boot_messages.log. *)
Definition resolve_evidence (fs : fsys) (results_dir : string)
    (boot_messages_file : option string) : option pystr * fsys :=
  let log := boot_log_path results_dir in
  (* if boot_messages_log.exists(): try: read *)
  let data1 := read_file fs log in
  if data_truthy data1 then (data1, fs)
  else
    match boot_messages_file with
    | Some bmf =>
        match fs !! bmf with
        | None => (data1, fs)                    (* not boot_messages_file.exists() *)
        | Some _ =>
            match read_file fs bmf with
            | None => (data1, fs)                (* read raised: printed *)
            | Some d =>
                match write_file fs log d with
                | Some fs' => (Some d, fs')
                | None => (Some d, fs)           (* copy raised: printed *)
                end
            end
        end
    | None => (data1, fs)
    end.

(** [run_test_runner(workspace, manifest, results_dir, boot_messages_file)].
    [runner_exists] is [test_runner_path.exists()] and [proc] the outcome of
    the subprocess.  The rewriting of run_tests.sh (lines 161-379) only
    changes what the external procedure does; that procedure is the
    oracle [proc] here, so the rewrite is not modelled. *)
Definition run_test_runner (fs : fsys) (results_dir : string)
    (boot_messages_file : option string) (runner_exists : bool)
    (proc : proc_outcome) : list test * fsys :=
  let '(boot_messages_data, fs1) := resolve_evidence fs results_dir boot_messages_file in
  if runner_exists then
    match proc with
    | ProcDone r => (reconcile boot_messages_data r, fs1)
    | ProcRaise msg => ([mk_test FAIL msg], fs1)
    end
  else ([mk_test SKIP (of_ascii "Test runner not found")], fs1).

End Invoker.

(* ------------------------------------------------------------------ *)
(** * Run Orchestrator: executor.main                                  *)
(* ------------------------------------------------------------------ *)

Module Orchestrator.
Import Invoker.

(** The fields of the manifest that main reads: [None] when the access
    raises ([KeyError] / [TypeError]). *)
Record manifest := {
  build_number : option pystr;       (* manifest['build']['build_number'] *)
  artifact_name : option string;     (* get_artifact_name *)
  device_target : option string;     (* get_device_target *)
  test_plan : option (list pystr)    (* get_test_plan, joined with ', ' *)
}.

Inductive load_result :=
| LoadErr (msg : pystr)              (* load_manifest raises *)
| LoadOk (m : manifest).

(** Run Result handed to write_summary, write_junit and write_meta. *)
Record summary := {
  s_status : status;
  s_tests : list test;
  s_build_number : pystr;
  s_device_target : string
}.

(** Observable events of one run. *)
Inductive mev :=
| MDiag                     (* a diagnostic printed *)
| MFlash                    (* flash_firmware called *)
| MReset                    (* reset_esp32 called *)
| MCapture                  (* test_uart_read_directly called *)
| MSaveEvidence             (* boot_messages.log written *)
| MRunTests                 (* run_test_runner called *)
| MReport (s : summary)     (* write_summary / write_junit / write_meta *)
| MExit (code : Z)          (* sys.exit(code) *)
| MCrash.                   (* an uncaught exception ends the process *)

(** Trace-and-exception monad: the events so far, and [None] once an
    exception escapes. *)
Definition M (A : Type) : Type := (list mev * option A)%type.

#[global] Instance M_ret : MRet M := fun A a => ([], Some a).
#[global] Instance M_bind : MBind M := fun A B f m =>
  match m with
  | (tr, None) => (tr, None)
  | (tr, Some a) => let '(tr', r) := f a in (tr ++ tr', r)
  end.

Definition emit (e : mev) : M unit := ([e], Some tt).
Definition raise {A} : M A := ([MCrash], None).

(** What main's collaborators do in one run. *)
Record orch_env := {
  load : load_result;
  flash_result : option bool;     (* flash_firmware(str(artifact_path)); None: raises *)
  port1 : option string;          (* detect_esp32_port(), line 604 *)
  reset1 : option bool;           (* reset_esp32(port), line 613; None: raises *)
  stale : bool;                   (* time_since_flash > 8.0, line 711 *)
  port2 : option string;          (* detect_esp32_port(), line 710 *)
  reset2 : option bool;           (* reset_esp32(port), line 713 *)
  capture : bool * pystr;         (* test_uart_read_directly(port, timeout=4) *)
  evidence_write_ok : bool;       (* open(boot_messages_file, 'w') succeeds *)
  makedirs_ok : bool;             (* os.makedirs(results_dir, exist_ok=True), line 550 *)
  summary_write_ok : bool;        (* write_summary: open(.../ats-summary.json, 'w') *)
  junit_write_ok : bool;          (* write_junit: open(.../junit.xml, 'w') *)
  meta_write_ok : bool;           (* write_meta: open(.../meta.yaml, 'w') *)
  tests_of : option string -> list test  (* run_test_runner(..., boot_messages_file) *)
}.

Definition port_truthy (o : option string) : bool :=
  match o with Some p => negb (String.eqb p "") | None => false end.

Definition any_fail (tests : list test) : bool :=
  existsb (fun t => match t_status t with FAIL => true | _ => false end) tests.

(** A call that either returns or raises (an [open] in results_dir). *)
Definition may_raise (ok : bool) : M unit := if ok then mret tt else raise.

Definition report_writes_ok (e : orch_env) : bool :=
  summary_write_ok e && junit_write_ok e && meta_write_ok e.

(** Step 3, lines 786-800: write_summary, write_junit and write_meta, none
    of them guarded; [MReport] marks that all three files were written. *)
Definition report (e : orch_env) (bn : pystr) (tgt : string) (exit_code : Z)
    (tests : list test) : M unit :=
  may_raise (summary_write_ok e) ;;
  may_raise (junit_write_ok e) ;;
  may_raise (meta_write_ok e) ;;
  emit (MReport {| s_status := if exit_code =? 0 then PASS else FAIL;
                   s_tests := tests;
                   s_build_number := bn;
                   s_device_target := tgt |}) ;;
  emit (MExit exit_code).

(** Lines 604-678, after a successful flash: optional explicit reset.  The
    buffer flush (lines 645-676) catches every exception and has no effect
    on the run; its serial events are modelled in [SerialScope]. *)
Definition explicit_reset (e : orch_env) : M unit :=
  if port_truthy (port1 e) then
    emit MReset ;;
    match reset1 e with
    | None => raise
    | Some true => mret tt
    | Some false => emit MDiag                   (* "Reset failed" *)
    end
  else mret tt.

(** Lines 689-759: fresh reset and capture when too late; the returned
    value is [boot_messages_file]. *)
Definition stale_recapture (results_dir : string) (e : orch_env) : M (option string) :=
  if port_truthy (port2 e) && stale e then
    emit MReset ;;
    match reset2 e with
    | None => raise
    | Some _ =>
        emit MCapture ;;
        let '(boot_success, boot_data) := capture e in
        if boot_success && truthy boot_data then
          if evidence_write_ok e then
            emit MSaveEvidence ;; mret (Some (boot_log_path results_dir))
          else raise
        else emit MDiag ;; mret None             (* "No boot messages captured" *)
    end
  else mret None.

(** [main()], lines 520-800. *)
Definition main (results_dir : string) (e : orch_env) : M unit :=
  match load e with
  | LoadErr _ => emit MDiag ;; emit (MExit 1)
  | LoadOk m =>
    match build_number m with
    | None => emit MDiag ;; emit (MExit 1)       (* caught at line 534 *)
    | Some bn =>
      match artifact_name m, device_target m, test_plan m with
      | Some _, Some tgt, Some _ =>
          may_raise (makedirs_ok e) ;;               (* line 550 *)
          if String.eqb tgt "esp32" then
            emit MFlash ;;
            match flash_result e with
            | None => raise
            | Some false =>
                emit MDiag ;;
                report e bn tgt 1 [mk_test SKIP (of_ascii "Flash failed")]
            | Some true =>
                explicit_reset e ;;
                bmf ← stale_recapture results_dir e ;
                emit MRunTests ;;
                let tests := tests_of e bmf in
                report e bn tgt (if any_fail tests then 1 else 0) tests
            end
          else
            emit MDiag ;;                        (* "Unknown device target" *)
            report e bn tgt 1 [mk_test SKIP (of_ascii "Flash failed")]
      | _, _, _ => raise                          (* lines 539-547 *)
      end
    end
  end.

End Orchestrator.

(* ------------------------------------------------------------------ *)
(** * Serial buffer flush of main, lines 645-676                        *)
(* ------------------------------------------------------------------ *)

Module SerialScope.
Import Capture.

(** Exceptions of the serial calls: [serial.SerialException] / [OSError]
    (caught per baud rate at line 663) and any other (caught at line 670). *)
Inductive serr := SerialOrOS | OtherExc.

(** The behaviour of the port at one baud rate. *)
Record baud_try := {
  bt_open : option serr;          (* serial.Serial(port, baud, timeout=0.5) *)
  bt_reset_in : option serr;      (* ser.reset_input_buffer() *)
  bt_reset_out : option serr;     (* ser.reset_output_buffer() *)
}.

(** [for baud in [115200, 9600]: try: ... ser.close(); break
    except (serial.SerialException, OSError): continue]; the result tells
    whether the loop goes on with the next baud rate. *)
Definition flush_one (t : baud_try) : list port_ev * bool :=
  match bt_open t with
  | Some SerialOrOS => ([], true)
  | Some OtherExc => ([], false)
  | None =>
      match bt_reset_in t with
      | Some SerialOrOS => ([EOpen], true)
      | Some OtherExc => ([EOpen], false)
      | None =>
          match bt_reset_out t with
          | Some SerialOrOS => ([EOpen], true)
          | Some OtherExc => ([EOpen], false)
          | None => ([EOpen; EClose], false)      (* close; break *)
          end
      end
  end.

Fixpoint flush_loop (bauds : list Z) (dev : Z -> baud_try) : list port_ev :=
  match bauds with
  | [] => []
  | b :: bs =>
      let '(tr, go_on) := flush_one (dev b) in
      tr ++ (if go_on then flush_loop bs dev else [])
  end.

Definition flush_serial_buffer (dev : Z -> baud_try) : list port_ev :=
  flush_loop [115200; 9600] dev.

(** Every open is matched by a close. *)
Definition count_ev (e : port_ev) (tr : list port_ev) : nat :=
  length (List.filter (fun x => match x, e with
                           | EOpen, EOpen | EClose, EClose => true
                           | _, _ => false end) tr).

Definition balanced (tr : list port_ev) : Prop :=
  count_ev EOpen tr = count_ev EClose tr.

End SerialScope.

(* ------------------------------------------------------------------ *)
(** * hardware.py: port location and driver rebind                    *)
(* ------------------------------------------------------------------ *)

Module Hardware.

Local Open Scope string_scope.

Definition slash : ascii := "/"%char.

(** [p.rfind('/')]: [Some (head, tail)] with [head] ending in the last
    ['/'] and [tail] after it; [None] without a ['/']. *)
Fixpoint rsplit_slash (s : string) : option (string * string) :=
  match s with
  | EmptyString => None
  | String c r =>
      match rsplit_slash r with
      | Some (h, t) => Some (String c h, t)
      | None => if Ascii.eqb c slash then Some (String c EmptyString, r) else None
      end
  end.

Fixpoint all_slashes (s : string) : bool :=
  match s with
  | EmptyString => true
  | String c r => Ascii.eqb c slash && all_slashes r
  end.

Fixpoint drop_while (f : ascii -> bool) (l : list ascii) : list ascii :=
  match l with
  | [] => []
  | c :: r => if f c then drop_while f r else l
  end.

(** [s.rstrip('/')]. *)
Definition rstrip_slash (s : string) : string :=
  string_of_list_ascii
    (rev (drop_while (fun c => Ascii.eqb c slash) (rev (list_ascii_of_string s)))).

(** [posixpath.basename]. *)
Definition basename (p : string) : string :=
  match rsplit_slash p with Some (_, t) => t | None => p end.

(** [posixpath.dirname]. *)
Definition dirname (p : string) : string :=
  match rsplit_slash p with
  | None => ""
  | Some (h, _) => if all_slashes h then h else rstrip_slash h
  end.

Definition ends_with_slash (s : string) : bool :=
  match rsplit_slash s with Some (_, "") => true | _ => false end.

(** [posixpath.join(a, b)]. *)
Definition path_join (a b : string) : string :=
  match b with
  | String c _ => if Ascii.eqb c slash then b
                  else if (a =? "") || ends_with_slash a then a ++ b else a ++ "/" ++ b
  | EmptyString => if (a =? "") || ends_with_slash a then a else a ++ "/"
  end.

(** The file system as hardware.py sees it. *)
Record sysfs := {
  path_exists : string -> bool;     (* os.path.exists *)
  realpath : string -> string;      (* os.path.realpath *)
  write_ok : string -> bool         (* open(p, 'w').write(...) succeeds *)
}.

(** [_get_usb_bus_path_for_tty(port)], lines 11-26. *)
Definition get_usb_bus_path_for_tty (fs : sysfs) (port : string) : option string :=
  if (port =? "") || negb (path_exists fs port) then None
  else
    let base := basename port in
    let device_link := path_join (path_join "/sys/class/tty" base) "device" in
    if negb (path_exists fs device_link) then None
    else
      let real := realpath fs device_link in
      let parent := dirname real in
      let device_dir := dirname parent in
      Some (basename device_dir).

Definition CP210X_DRIVER := "/sys/bus/usb/drivers/cp210x".

Fixpoint has_char (c : ascii) (s : string) : bool :=
  match s with
  | EmptyString => false
  | String d r => Ascii.eqb c d || has_char c r
  end.

(** [try_reset_serial_port(port)], lines 29-51: the result and the
    successful writes [(path, data)], in order. *)
Definition try_reset_serial_port (fs : sysfs) (port : string)
    : bool * list (string * string) :=
  match get_usb_bus_path_for_tty fs port with
  | None => (false, [])
  | Some bus_path =>
      if (bus_path =? "") || has_char ":"%char bus_path then (false, [])
      else
        let unbind := path_join CP210X_DRIVER "unbind" in
        let bind := path_join CP210X_DRIVER "bind" in
        if negb (path_exists fs unbind) || negb (path_exists fs bind) then (false, [])
        else if negb (write_ok fs unbind) then (false, [])
        else if negb (write_ok fs bind) then (false, [(unbind, bus_path)])
        else (true, [(unbind, bus_path); (bind, bus_path)])
  end.

(** [str.strip()] on 8-bit text: the characters for which [isspace()] holds. *)
Definition is_space (c : ascii) : bool :=
  let n := nat_of_ascii c in
  (Nat.leb 9 n && Nat.leb n 13) || (Nat.leb 28 n && Nat.leb n 32)
  || Nat.eqb n 133 || Nat.eqb n 160.

Definition strip (s : string) : string :=
  let l := drop_while is_space (list_ascii_of_string s) in
  string_of_list_ascii (rev (drop_while is_space (rev l))).

(** [fnmatch] of ['<dir>/<prefix>*'] as [glob] does it: the rest after the
    prefix holds no ['/']. *)
Fixpoint strip_prefix (pfx s : string) : option string :=
  match pfx, s with
  | EmptyString, _ => Some s
  | String a pfx', String b s' => if Ascii.eqb a b then strip_prefix pfx' s' else None
  | String _ _, EmptyString => None
  end.

Definition glob_match (pfx p : string) : bool :=
  match strip_prefix pfx p with
  | Some rest => negb (has_char slash rest)
  | None => false
  end.

(** [sorted(...)] on strings (Python compares code points; on 8-bit text
    this is [String.compare]).  Any stable sort gives this same list. *)
Fixpoint insert_sorted (x : string) (l : list string) : list string :=
  match l with
  | [] => [x]
  | y :: l' => if String.leb x y then x :: y :: l' else y :: insert_sorted x l'
  end.

Fixpoint sort_strings (l : list string) : list string :=
  match l with
  | [] => []
  | x :: l' => insert_sorted x (sort_strings l')
  end.

(** The devices: [SERIAL_PORT] in the environment and the existing paths. *)
Record dev_env := {
  serial_port_env : option string;
  existing : list string
}.

Definition dev_exists (d : dev_env) (p : string) : bool :=
  existsb (String.eqb p) (existing d).

Definition glob (d : dev_env) (pfx : string) : list string :=
  List.filter (glob_match pfx) (existing d).

Definition priority_ports : list string :=
  ["/dev/ttyUSB0"; "/dev/ttyUSB1"; "/dev/ttyACM0"; "/dev/ttyACM1"].

(** [detect_esp32_port()], lines 54-68. *)
Definition detect_esp32_port (d : dev_env) : option string :=
  let env_port := strip (match serial_port_env d with Some v => v | None => "" end) in
  if negb (env_port =? "") && dev_exists d env_port then Some env_port
  else
    match List.find (dev_exists d) priority_ports with
    | Some p => Some p
    | None =>
        match sort_strings (glob d "/dev/ttyUSB" ++ glob d "/dev/ttyACM") with
        | p :: _ => Some p
        | [] => None
        end
    end.

End Hardware.

(* ------------------------------------------------------------------ *)
(** * manifest.py: load_manifest                                       *)
(* ------------------------------------------------------------------ *)

Module Manifest.

(** A document as [yaml.safe_load] returns it (mapping keys are strings;
    a duplicated key keeps its last value, as PyYAML does). *)
#[warnings="-register-all"]
Inductive yval :=
| YNull
| YBool (b : bool)
| YInt (n : Z)
| YFloat (q : Q)
| YStr (s : pystr)
| YList (l : list yval)
| YMap (kv : list (string * yval)).

(** Python truthiness ([if not data]). *)
Definition ytruthy (v : yval) : bool :=
  match v with
  | YNull => false
  | YBool b => b
  | YInt n => negb (n =? 0)
  | YFloat q => negb (Qeq_bool q 0)
  | YStr s => truthy s
  | YList l => match l with [] => false | _ => true end
  | YMap kv => match kv with [] => false | _ => true end
  end.

(** [d.get(k)] / [k in d] on a mapping. *)
Definition ylookup (k : string) (kv : list (string * yval)) : option yval :=
  match List.find (fun e => String.eqb (fst e) k) (rev kv) with
  | Some (_, v) => Some v
  | None => None
  end.

(** [v == 1] in Python: [1], [True] and [1.0] are all equal to [1]. *)
Definition eq_one (v : yval) : bool :=
  match v with
  | YInt n => n =? 1
  | YBool b => b
  | YFloat q => Qeq_bool q 1
  | _ => false
  end.

Inductive manifest_error :=
| NotFound                     (* "Manifest not found: ..." *)
| EmptyManifest                (* "Manifest is empty" *)
| BadVersion                   (* "Unsupported manifest version: ..." *)
| MissingField (f : string).   (* "Missing required field: ..." *)

Inductive load_res :=
| MOk (data : yval)
| MErr (e : manifest_error)    (* ManifestError *)
| MRaise.                      (* another exception: YAML error, AttributeError *)

Definition required : list string := ["build"; "device"; "test_plan"; "timestamps"]%string.

(** [load_manifest(manifest_path)], lines 12-33.  [parsed] is what
    [yaml.safe_load] returns, [None] when it raises. *)
Definition load_manifest (path_exists : bool) (parsed : option yval) : load_res :=
  if negb path_exists then MErr NotFound
  else match parsed with
  | None => MRaise
  | Some data =>
      if negb (ytruthy data) then MErr EmptyManifest
      else match data with
      | YMap kv =>
          let version := match ylookup "manifest_version" kv with
                         | Some v => v | None => YNull end in
          if negb (eq_one version) then MErr BadVersion
          else match List.find (fun f => match ylookup f kv with Some _ => false | None => true end) required with
               | Some f => MErr (MissingField f)
               | None => MOk data
               end
      | _ => MRaise                   (* data.get: AttributeError *)
      end
  end.

End Manifest.

(* ------------------------------------------------------------------ *)
(** * results.py: write_junit                                          *)
(* ------------------------------------------------------------------ *)

Module Junit.
Import Invoker.

(** A test dict: [t.get('name')], [t.get('status')], [t.get('failure')]. *)
Record jtest := { j_name : option pystr; j_status : option pystr; j_failure : option pystr }.

Definition quote : pystr := [34].
Definition nl : pystr := [10].

(** [str(n)] for [n >= 0]. *)
Fixpoint digits_rev (fuel : nat) (n : Z) : pystr :=
  match fuel with
  | O => []
  | S f => (48 + n mod 10) :: (if n <? 10 then [] else digits_rev f (n / 10))
  end.

Definition py_str_nat (n : nat) : pystr := rev (digits_rev (S n) (Z.of_nat n)).

Definition is_FAIL (t : jtest) : bool :=
  match j_status t with
  | Some st => bool_decide (st = of_ascii "FAIL")
  | None => false
  end.

Definition junit_header (total failures : nat) : pystr :=
  of_ascii "<?xml version=" ++ quote ++ of_ascii "1.0" ++ quote
  ++ of_ascii " encoding=" ++ quote ++ of_ascii "UTF-8" ++ quote ++ of_ascii "?>" ++ nl
  ++ of_ascii "<testsuites>" ++ nl
  ++ of_ascii "  <testsuite name=" ++ quote ++ of_ascii "ATS Hardware Tests" ++ quote
  ++ of_ascii " tests=" ++ quote ++ py_str_nat total ++ quote
  ++ of_ascii " failures=" ++ quote ++ py_str_nat failures ++ quote ++ of_ascii ">" ++ nl.

(** Lines 31-39: the lines of one test case. *)
Definition junit_case (t : jtest) : pystr :=
  let name := default (of_ascii "unknown") (j_name t) in
  let failure_msg := default [] (j_failure t) in
  of_ascii "    <testcase name=" ++ quote ++ name ++ quote
    ++ of_ascii " classname=" ++ quote ++ of_ascii "HardwareTest" ++ quote
    ++ of_ascii ">" ++ nl
  ++ (if is_FAIL t then of_ascii "      <failure>" ++ failure_msg ++ of_ascii "</failure>" ++ nl
      else [])
  ++ of_ascii "    </testcase>" ++ nl.

Definition junit_footer : pystr :=
  of_ascii "  </testsuite>" ++ nl ++ of_ascii "</testsuites>" ++ nl.

(** [write_junit(results_dir, tests)], lines 19-47: the text written to
    junit.xml. *)
Definition junit_xml (tests : list jtest) : pystr :=
  junit_header (length tests) (length (List.filter is_FAIL tests))
  ++ concat (map junit_case tests) ++ junit_footer.

Definition status_str (s : status) : pystr :=
  match s with
  | PASS => of_ascii "PASS" | FAIL => of_ascii "FAIL" | SKIP => of_ascii "SKIP"
  end.

(** The dicts main builds: [{'name': 'test_execution', 'status': ..., 'failure': ...}]. *)
Definition entry (t : test) : jtest :=
  {| j_name := Some (of_ascii "test_execution");
     j_status := Some (status_str (t_status t));
     j_failure := Some (t_failure t) |}.

End Junit.

(* ================================================================== *)
(** * Properties                                                      *)
(* ================================================================== *)

(* ------------------------------------------------------------------ *)
(** ** Boot Evidence Store                                             *)
(* ------------------------------------------------------------------ *)

Module EvidenceProps.
Import Files.

Lemma univ_nl_no_cr (d : pystr) : ~ In 13 d -> univ_nl d = d.
Proof.
  induction d as [|c r IH]; intros Hn; [done|].
  simpl. destruct (Z.eqb_spec c 13) as [->|Hc].
  - exfalso. apply Hn. by left.
  - rewrite IH; [done|]. intros Hin. apply Hn. by right.
Qed.

Lemma save_evidence_lookup (fs fs' : fsys) p d :
  save_evidence fs p d = Some fs' -> fs' !! p = Some (FText (d ++ [10])).
Proof.
  unfold save_evidence, write_file. destruct (fs !! p) as [[]|]; intros H;
    try discriminate; injection H as <-; apply lookup_insert_eq.
Qed.

Lemma save_evidence_text_ok (fs : fsys) p d e :
  fs !! p = Some (FText e) -> exists fs', save_evidence fs p d = Some fs'.
Proof. intros H. unfold save_evidence, write_file. rewrite H. eauto. Qed.

(** C1 (counterexample): saving ["rst:"] and loading it back does not give
    ["rst:"]: the store appends a newline. *)
Lemma evidence_roundtrip_counterexample :
  exists fs', save_evidence ∅ "results/boot_messages.log" (of_ascii "rst:") = Some fs'
    /\ load_evidence fs' "results/boot_messages.log" <> Some (of_ascii "rst:").
Proof.
  eexists. split; [reflexivity|]. vm_compute. congruence.
Qed.

(** C1 (amended): once a save of [d1] succeeds, loading the evidence file
    gives [d1] followed by a newline, with line endings normalised by the
    text-mode read (exactly [d1 ++ "\n"] when [d1] has no carriage return);
    a second save of [d2] always succeeds and replaces the content
    entirely: loading then gives [d2 ++ "\n"] (normalised), nothing of [d1]. *)
Theorem evidence_save_load (fs fs1 : fsys) (p : string) (d1 d2 : pystr) :
  save_evidence fs p d1 = Some fs1 ->
  load_evidence fs1 p = Some (univ_nl (d1 ++ [10]))
  /\ (~ In 13 d1 -> load_evidence fs1 p = Some (d1 ++ [10]))
  /\ exists fs2, save_evidence fs1 p d2 = Some fs2
       /\ load_evidence fs2 p = Some (univ_nl (d2 ++ [10])).
Proof.
  intros Hs. pose proof (save_evidence_lookup _ _ _ _ Hs) as Hl.
  assert (Hload : load_evidence fs1 p = Some (univ_nl (d1 ++ [10]))).
  { unfold load_evidence, read_file. by rewrite Hl. }
  split; [exact Hload|]. split.
  - intros Hn. rewrite Hload, univ_nl_no_cr; [done|].
    intros Hin. apply in_app_or in Hin as [Hin|Hin]; [done|].
    destruct Hin as [Hin|[]]. discriminate.
  - destruct (save_evidence_text_ok fs1 p d2 _ Hl) as [fs2 Hs2].
    exists fs2. split; [done|].
    unfold load_evidence, read_file. by rewrite (save_evidence_lookup _ _ _ _ Hs2).
Qed.

Lemma evidence_save_load_witness :
  (exists fs1, save_evidence ∅ "results/boot_messages.log" (of_ascii "rst:") = Some fs1)
  /\ forall fs1, save_evidence ∅ "results/boot_messages.log" (of_ascii "rst:") = Some fs1 ->
     load_evidence fs1 "results/boot_messages.log" = Some (of_ascii "rst:" ++ [10]).
Proof.
  split; [eexists; reflexivity|].
  intros fs1 Hs.
  destruct (evidence_save_load ∅ fs1 "results/boot_messages.log" (of_ascii "rst:")
              (of_ascii "ets") Hs) as [_ [Hn _]].
  apply Hn. simpl. intuition discriminate.
Defined.

End EvidenceProps.

(* ------------------------------------------------------------------ *)
(** ** Firmware Flasher                                                *)
(* ------------------------------------------------------------------ *)

Module FlasherProps.
Import Flasher.

(** The result of [try_reset_serial_port] never changes the loop: both of
    its outcomes continue with the next attempt. *)
Lemma retry_loop_recover_irrelevant k attempt tool r1 r2 :
  retry_loop k attempt tool r1 = retry_loop k attempt tool r2.
Proof.
  revert attempt. induction k as [|k IH]; intros attempt; [done|].
  simpl. destruct (tool attempt) as [|err|]; [done| |done].
  destruct (is_port_error err) eqn:Hpe; simpl.
  - destruct (Nat.eqb_spec attempt 1) as [->|Hne]; simpl.
    + rewrite (IH 2%nat). by destruct r1, r2.
    + destruct (Nat.ltb attempt max_attempts); simpl; [|done].
      by rewrite (IH (S attempt)).
  - by destruct (Nat.ltb attempt max_attempts).
Qed.

(** Every iteration starts by running the tool. *)
Lemma retry_loop_first_tool k attempt tool r :
  exists res tr, retry_loop (S k) attempt tool r = (res, EvTool attempt :: tr).
Proof.
  simpl. destruct (tool attempt) as [|err|]; eauto.
  destruct (retry_loop k (S attempt) tool r) as [res tr].
  destruct (is_port_error err && Nat.eqb attempt 1); [destruct r|];
    destruct (Nat.ltb attempt max_attempts && is_port_error err); eauto.
Qed.

Definition hint_of (pre : precheck) : list fev :=
  match pre with
  | PreOk => []
  | PreRaise msg =>
      if contains (of_ascii "Errno 5") msg
         || contains (of_ascii "Input/output error") msg
         || contains (of_ascii "could not open") msg
      then [EvHint] else []
  end.

Lemma flash_firmware_unfold port_arg detected pre tool r p :
  resolve_port port_arg detected = Some p -> p <> ""%string ->
  flash_firmware port_arg detected true pre tool r
  = let '(res, tr) := retry_loop max_attempts 1 tool r in (res, hint_of pre ++ tr).
Proof.
  intros Hp Hne. unfold flash_firmware. rewrite Hp.
  destruct (String.eqb_spec p "") as [->|_]; [done|]. simpl. done.
Qed.

(** C2: with a port and the firmware present, a tool that fails twice with
    a port-busy signature and then succeeds makes [flash_firmware] return
    true after exactly three tool runs; Port Recovery is called once, right
    after the first failure, and the second failure is retried after the
    fixed backoff only.  This holds whatever the pre-check and the
    recovery report. *)
Theorem flash_port_busy_twice_then_ok port_arg detected p pre tool r e1 e2 :
  resolve_port port_arg detected = Some p -> p <> ""%string ->
  tool 1%nat = ToolFail e1 -> tool 2%nat = ToolFail e2 -> tool 3%nat = ToolOk ->
  is_port_error e1 = true -> is_port_error e2 = true ->
  exists h, (h = [] \/ h = [EvHint])
    /\ flash_firmware port_arg detected true pre tool r
       = (Some true, h ++ [EvTool 1; EvRecover; EvSleep; EvTool 2; EvSleep; EvTool 3]).
Proof.
  intros Hp Hne H1 H2 H3 He1 He2.
  exists (hint_of pre). split.
  { destruct pre as [|msg]; simpl; [by left|].
    destruct (_ || _); [by right|by left]. }
  rewrite (flash_firmware_unfold _ _ _ _ _ _ Hp Hne).
  rewrite (retry_loop_recover_irrelevant _ _ _ r true).
  simpl. rewrite H1, He1. simpl. rewrite H2, He2. simpl. rewrite H3. done.
Qed.

Lemma flash_port_busy_twice_then_ok_witness :
  exists h, (h = [] \/ h = [EvHint])
    /\ flash_firmware (Some "/dev/ttyUSB0") None true PreOk
         (fun n : nat => match n with
                         | 1%nat | 2%nat => ToolFail (of_ascii "could not open port")
                         | _ => ToolOk end) false
       = (Some true, h ++ [EvTool 1; EvRecover; EvSleep; EvTool 2; EvSleep; EvTool 3]).
Proof.
  apply (flash_port_busy_twice_then_ok (Some "/dev/ttyUSB0") None "/dev/ttyUSB0"
           PreOk _ false (of_ascii "could not open port") (of_ascii "could not open port"));
    first [reflexivity | discriminate].
Defined.

(** C9: with a port and an existing firmware file, the serial pre-check
    never changes the result of [flash_firmware] (nor does the outcome of
    Port Recovery): the result depends only on the port, the firmware file
    and the tool runs, and the flashing tool is always run. *)
Theorem flash_precheck_irrelevant port_arg detected p pre1 pre2 tool r1 r2 :
  resolve_port port_arg detected = Some p -> p <> ""%string ->
  fst (flash_firmware port_arg detected true pre1 tool r1)
  = fst (flash_firmware port_arg detected true pre2 tool r2)
  /\ In (EvTool 1) (snd (flash_firmware port_arg detected true pre1 tool r1)).
Proof.
  intros Hp Hne.
  rewrite !(flash_firmware_unfold _ _ _ _ _ _ Hp Hne).
  rewrite (retry_loop_recover_irrelevant _ _ _ r1 r2).
  destruct (retry_loop_first_tool 2 1 tool r2) as [res [tr Hr]].
  unfold max_attempts. rewrite Hr. split; [done|].
  simpl. apply in_or_app. right. by left.
Qed.

Lemma flash_precheck_irrelevant_witness :
  fst (flash_firmware (Some "/dev/ttyUSB0") None true PreOk (fun _ => ToolOk) true)
  = fst (flash_firmware (Some "/dev/ttyUSB0") None true
           (PreRaise (of_ascii "[Errno 5] Input/output error")) (fun _ => ToolOk) false).
Proof.
  apply (flash_precheck_irrelevant (Some "/dev/ttyUSB0") None "/dev/ttyUSB0"); done.
Defined.

End FlasherProps.

(* ------------------------------------------------------------------ *)
(** ** Test Invoker                                                    *)
(* ------------------------------------------------------------------ *)

Module InvokerProps.
Import Files Invoker.

Lemma any_in_patterns_nil : any_in reconcile_boot_patterns [] = false.
Proof. reflexivity. Qed.

Lemma run_test_runner_done fs dir bmf r :
  fst (run_test_runner fs dir bmf true (ProcDone r))
  = reconcile (fst (resolve_evidence fs dir bmf)) r.
Proof. unfold run_test_runner. by destruct (resolve_evidence fs dir bmf). Qed.

(** C3: when the finished test procedure prints "UART boot validation
    FAILED" and the boot evidence holds one of the recognized boot tokens
    of the reconciliation, the outcome is a single PASS, whatever the
    exit code. *)
Theorem reconcile_failed_marker_pass fs dir bmf r ev :
  contains failed_marker (stdout r) = true ->
  fst (resolve_evidence fs dir bmf) = Some ev ->
  any_in reconcile_boot_patterns ev = true ->
  fst (run_test_runner fs dir bmf true (ProcDone r)) = [mk_test PASS []].
Proof.
  intros Hf Hev Htok. rewrite run_test_runner_done, Hev.
  destruct ev as [|c ev']; [by rewrite any_in_patterns_nil in Htok|].
  unfold reconcile. rewrite Hf, andb_true_r.
  destruct (Z.eqb_spec (returncode r) 0) as [H0|H0];
    cbn [negb andb data_truthy truthy].
  - by destruct (_ || _).
  - by rewrite Htok.
Qed.

Definition ex_dir : string := "results".
Definition ex_fs (log : pystr) : fsys :=
  <["results/boot_messages.log" := FText log]> ∅.

Lemma reconcile_failed_marker_pass_witness :
  fst (run_test_runner (ex_fs (of_ascii "rst:0x1 (POWERON_RESET)")) ex_dir None true
         (ProcDone {| returncode := 1;
                      stdout := of_ascii "UART boot validation FAILED";
                      stderr := [] |}))
  = [mk_test PASS []].
Proof.
  apply (reconcile_failed_marker_pass _ _ _ _ (of_ascii "rst:0x1 (POWERON_RESET)"));
    vm_compute; reflexivity.
Defined.

(** C4 (counterexample): the stdout holds both markers, the exit code is 1
    and the evidence is non-empty without a boot token: the outcome is FAIL. *)
Lemma passed_marker_not_honored :
  fst (run_test_runner (ex_fs (of_ascii "hello")) ex_dir None true
         (ProcDone {| returncode := 1;
                      stdout := of_ascii "UART boot validation PASSED; UART boot validation FAILED";
                      stderr := [] |}))
  = [mk_test FAIL (of_ascii "UART boot validation failed")].
Proof. vm_compute. reflexivity. Qed.

(** C4 (amended): when the stdout holds "UART boot validation PASSED", the
    outcome is a single PASS whatever the exit code, except when the exit
    code is non-zero, the stdout also holds "UART boot validation FAILED"
    and the boot evidence is non-empty without a recognized boot token:
    then the outcome is a single FAIL. *)
Theorem reconcile_passed_marker fs dir bmf r :
  contains passed_marker (stdout r) = true ->
  let ev := fst (resolve_evidence fs dir bmf) in
  let res := fst (run_test_runner fs dir bmf true (ProcDone r)) in
  (negb (returncode r =? 0) && contains failed_marker (stdout r) && data_truthy ev
   && negb (any_in reconcile_boot_patterns (default [] ev)) = false ->
   res = [mk_test PASS []])
  /\ (negb (returncode r =? 0) && contains failed_marker (stdout r) && data_truthy ev
      && negb (any_in reconcile_boot_patterns (default [] ev)) = true ->
      exists msg, res = [mk_test FAIL msg]).
Proof.
  intros Hp ev res. subst res. rewrite run_test_runner_done. fold ev. clearbody ev.
  unfold reconcile. rewrite Hp. cbn [orb].
  destruct (negb (returncode r =? 0) && contains failed_marker (stdout r)
            && data_truthy ev) eqn:Hc; cbn [andb].
  - destruct ev as [e|]; [|by rewrite andb_false_r in Hc]. change (default [] (Some e)) with e.
    destruct (any_in reconcile_boot_patterns e); cbn [negb]; split; intros H;
      try discriminate; eauto.
  - split; intros H; [done|discriminate].
Qed.

Lemma reconcile_passed_marker_witness :
  fst (run_test_runner (ex_fs (of_ascii "hello")) ex_dir None true
         (ProcDone {| returncode := 2;
                      stdout := of_ascii "UART boot validation PASSED";
                      stderr := of_ascii "other test failed" |}))
  = [mk_test PASS []].
Proof.
  apply (reconcile_passed_marker (ex_fs (of_ascii "hello")) ex_dir None
           {| returncode := 2; stdout := of_ascii "UART boot validation PASSED";
              stderr := of_ascii "other test failed" |});
    vm_compute; reflexivity.
Defined.

(** C10 (counterexample): boot_messages.log exists and reads as empty
    text; the evidence comes from the passed file, and the log is
    overwritten with it. *)
Lemma empty_log_falls_back :
  let fs := <["results/boot_messages.log" := FText []]>
            (<["capture.log" := FText (of_ascii "rst:")]> ∅) in
  read_file fs "results/boot_messages.log" = Some []
  /\ fst (resolve_evidence fs ex_dir (Some "capture.log")) = Some (of_ascii "rst:")
  /\ read_file (snd (resolve_evidence fs ex_dir (Some "capture.log")))
       "results/boot_messages.log" = Some (of_ascii "rst:").
Proof. vm_compute. repeat split; reflexivity. Qed.

(** C10 (amended): a boot_messages.log that reads as non-empty text is the
    evidence and nothing is touched; the passed file is consulted only when
    that log is absent, unreadable or empty, and then, if it reads, its
    contents are the evidence and are copied into boot_messages.log (when
    that file can be opened for writing). *)
Theorem evidence_precedence (fs : fsys) dir bmf :
  (forall s, read_file fs (boot_log_path dir) = Some s -> s <> [] ->
     resolve_evidence fs dir bmf = (Some s, fs))
  /\ (forall a d, (read_file fs (boot_log_path dir) = None
                  \/ read_file fs (boot_log_path dir) = Some []) ->
      bmf = Some a -> read_file fs a = Some d ->
      fst (resolve_evidence fs dir bmf) = Some d
      /\ forall fs', write_file fs (boot_log_path dir) d = Some fs' ->
                     snd (resolve_evidence fs dir bmf) = fs').
Proof.
  split.
  - intros s Hs Hne. unfold resolve_evidence. rewrite Hs.
    destruct s; [done|]. reflexivity.
  - intros a d Hlog -> Hd. unfold resolve_evidence.
    assert (Hf : data_truthy (read_file fs (boot_log_path dir)) = false)
      by (destruct Hlog as [-> | ->]; done).
    rewrite Hf, Hd.
    assert (Ha : exists f, fs !! a = Some f).
    { unfold read_file in Hd. destruct (fs !! a); [eauto|discriminate]. }
    destruct Ha as [f ->].
    destruct (write_file fs (boot_log_path dir) d) eqn:Hw; simpl; split; try done.
    intros fs' H. congruence.
Qed.

Lemma evidence_precedence_witness :
  fst (resolve_evidence (<["capture.log" := FText (of_ascii "rst:")]> ∅) ex_dir
         (Some "capture.log")) = Some (of_ascii "rst:").
Proof.
  destruct (evidence_precedence (<["capture.log" := FText (of_ascii "rst:")]> ∅) ex_dir
              (Some "capture.log")) as [_ Hb].
  exact (proj1 (Hb "capture.log" (of_ascii "rst:") (or_introl eq_refl) eq_refl eq_refl)).
Defined.

End InvokerProps.

(* ------------------------------------------------------------------ *)
(** ** Boot Capturer and serial scoping                                *)
(* ------------------------------------------------------------------ *)

Module CaptureProps.
Import Capture SerialScope.

Definition open_fails : uart_dev :=
  {| serial_available := true;
     open_err := Some (of_ascii "could not open port /dev/ttyUSB0");
     reset_in_err := None; reset_out_err := None; polls := [] |}.

Definition invalid_bytes : uart_dev :=
  {| serial_available := true; open_err := None;
     reset_in_err := None; reset_out_err := None;
     polls := [PollData [255]; PollData []] |}.

(** C5 (counterexample): on the exception path [found] is false with the
    non-empty exception text; and a read of the single byte 0xFF gives
    [found] true with an empty decoded text. *)
Lemma capture_found_payload_counterexample :
  fst (test_uart_read_directly open_fails)
    = (false, of_ascii "could not open port /dev/ttyUSB0")
  /\ fst (test_uart_read_directly invalid_bytes) = (true, []).
Proof. split; reflexivity. Qed.

(** C5 (amended): [found] is true iff the port was opened and read with no
    exception and the raw bytes read are non-empty; the text is then the
    UTF-8 decoding of those bytes with ill-formed sequences dropped (empty
    when no byte was read); without pyserial the result is [(false, "")];
    on any other exception [found] is false and the text is the exception
    message. *)
Theorem capture_result_shape (d : uart_dev) :
  let found := fst (fst (test_uart_read_directly d)) in
  let text := snd (fst (test_uart_read_directly d)) in
  (serial_available d = false -> found = false /\ text = [])
  /\ (forall data,
        serial_available d = true -> open_err d = None -> reset_in_err d = None ->
        reset_out_err d = None -> read_loop (polls d) [] = inr data ->
        (found = true <-> data <> []) /\ text = decode_utf8_ignore data
        /\ (found = false -> text = []))
  /\ (forall msg,
        serial_available d = true ->
        (open_err d = Some msg
         \/ (open_err d = None /\ reset_in_err d = Some msg)
         \/ (open_err d = None /\ reset_in_err d = None /\ reset_out_err d = Some msg)
         \/ (open_err d = None /\ reset_in_err d = None /\ reset_out_err d = None
             /\ read_loop (polls d) [] = inl msg)) ->
        found = false /\ text = msg).
Proof.
  intros found text. subst found text.
  unfold test_uart_read_directly. split; [|split].
  - by intros ->.
  - intros data -> Ho Hi Hu Hr. rewrite Ho, Hi, Hu, Hr. cbn [fst snd negb].
    destruct data as [|b data]; cbn; repeat split; try done.

  - intros msg -> [Ho|[[Ho Hi]|[[Ho [Hi Hu]]|[Ho [Hi [Hu Hr]]]]]];
      rewrite ?Ho, ?Hi, ?Hu, ?Hr; done.
Qed.

Lemma capture_result_shape_witness :
  fst (fst (test_uart_read_directly invalid_bytes)) = true.
Proof.
  destruct (capture_result_shape invalid_bytes) as [_ [Hread _]].
  destruct (Hread [255] eq_refl eq_refl eq_refl eq_refl eq_refl) as [[_ Hne] _].
  apply Hne. discriminate.
Defined.

Definition reset_fails : uart_dev :=
  {| serial_available := true; open_err := None;
     reset_in_err := Some (of_ascii "Input/output error");
     reset_out_err := None; polls := [] |}.

Definition flush_dev (baud : Z) : baud_try :=
  if baud =? 115200
  then {| bt_open := None; bt_reset_in := Some SerialOrOS; bt_reset_out := None |}
  else {| bt_open := None; bt_reset_in := None; bt_reset_out := None |}.

(** C8 (failing input): when [reset_input_buffer] raises after the port was
    opened, the capture returns without closing it; the buffer flush opens
    the port at 115200, fails, and opens it again at 9600 without ever
    closing the first handle. *)
Theorem serial_left_open_on_exception :
  snd (test_uart_read_directly reset_fails) = [EOpen]
  /\ ~ balanced (snd (test_uart_read_directly reset_fails))
  /\ flush_serial_buffer flush_dev = [EOpen; EOpen; EClose]
  /\ ~ balanced (flush_serial_buffer flush_dev).
Proof.
  repeat split; try reflexivity; unfold balanced; vm_compute; discriminate.
Qed.

End CaptureProps.

(* ------------------------------------------------------------------ *)
(** ** Run Orchestrator                                                *)
(* ------------------------------------------------------------------ *)

Module OrchestratorProps.
Import Invoker Orchestrator.









(** C6: when the manifest is loaded, the target is esp32 and flashing
    returns false, the run reports status FAIL with the single outcome
    SKIP "Flash failed", exits with code 1, and never invokes the test
    procedure; if one of the report writers raises, the process ends in
    that uncaught exception (exit status 1) right after the diagnostic. *)
Theorem flash_failure_short_circuit dir e m bn art tp :
  load e = LoadOk m -> build_number m = Some bn -> artifact_name m = Some art ->
  device_target m = Some "esp32"%string -> test_plan m = Some tp ->
  makedirs_ok e = true -> flash_result e = Some false ->
  main dir e
  = (if report_writes_ok e then
       ([MFlash; MDiag;
         MReport {| s_status := FAIL;
                    s_tests := [mk_test SKIP (of_ascii "Flash failed")];
                    s_build_number := bn;
                    s_device_target := "esp32" |};
         MExit 1], Some tt)
     else ([MFlash; MDiag; MCrash], None))
  /\ ~ In MRunTests (fst (main dir e)).
Proof.
  intros Hl Hb Ha Ht Hp Hd Hf.
  assert (Heq : main dir e
    = (if report_writes_ok e then
         ([MFlash; MDiag;
           MReport {| s_status := FAIL;
                      s_tests := [mk_test SKIP (of_ascii "Flash failed")];
                      s_build_number := bn;
                      s_device_target := "esp32" |};
           MExit 1], Some tt)
       else ([MFlash; MDiag; MCrash], None))).
  { unfold main. rewrite Hl, Hb, Ha, Ht, Hp. simpl. rewrite Hd. simpl. rewrite Hf.
    unfold report, report_writes_ok.
    destruct (summary_write_ok e), (junit_write_ok e), (meta_write_ok e); reflexivity. }
  split; [exact Heq|]. rewrite Heq.
  destruct (report_writes_ok e); simpl; intuition discriminate.
Qed.

Definition ex_manifest : manifest :=
  {| build_number := Some (of_ascii "42"); artifact_name := Some "firmware.bin";
     device_target := Some "esp32"; test_plan := Some [of_ascii "uart_boot"] |}.

Definition ex_env (l : load_result) (flash : option bool) : orch_env :=
  {| load := l; flash_result := flash;
     port1 := Some "/dev/ttyUSB0"; reset1 := Some true; stale := true;
     port2 := Some "/dev/ttyUSB0"; reset2 := Some true;
     capture := (true, of_ascii "rst:0x1 (POWERON_RESET)");
     evidence_write_ok := true;
     makedirs_ok := true; summary_write_ok := true; junit_write_ok := true;
     meta_write_ok := true;
     tests_of := fun _ => [mk_test PASS []] |}.

Lemma flash_failure_short_circuit_witness :
  ~ In MRunTests (fst (main "results" (ex_env (LoadOk ex_manifest) (Some false)))).
Proof.
  exact (proj2 (flash_failure_short_circuit "results" (ex_env (LoadOk ex_manifest) (Some false))
                  ex_manifest (of_ascii "42") "firmware.bin" [of_ascii "uart_boot"]
                  eq_refl eq_refl eq_refl eq_refl eq_refl eq_refl eq_refl)).
Defined.




End OrchestratorProps.

(* ------------------------------------------------------------------ *)
(** ** hardware.py                                                     *)
(* ------------------------------------------------------------------ *)

Module HardwareProps.
Import Hardware.
Local Open Scope string_scope.

Lemma rsplit_slash_none s : rsplit_slash s = None -> has_char slash s = false.
Proof.
  induction s as [|c r IH]; cbn [rsplit_slash has_char]; [done|].
  destruct (rsplit_slash r) as [[h t]|]; [discriminate|].
  destruct (Ascii.eqb_spec c slash) as [->|Hc]; [discriminate|].
  intros _. rewrite IH; [|done]. destruct (Ascii.eqb_spec slash c); [congruence|done].
Qed.

Lemma rsplit_slash_tail s h t :
  rsplit_slash s = Some (h, t) -> has_char slash t = false.
Proof.
  revert h t. induction s as [|c r IH]; intros h t; cbn [rsplit_slash]; [discriminate|].
  destruct (rsplit_slash r) as [[h' t']|] eqn:Hr.
  - intros [= _ <-]. by apply (IH h').
  - destruct (Ascii.eqb c slash); [|discriminate]. intros [= _ <-].
    by apply rsplit_slash_none.
Qed.

(** [os.path.basename] never contains a ['/']. *)
Lemma basename_no_slash p : has_char slash (basename p) = false.
Proof.
  unfold basename. destruct (rsplit_slash p) as [[h t]|] eqn:E.
  - by apply (rsplit_slash_tail p h).
  - by apply rsplit_slash_none.
Qed.

Lemma bus_path_no_slash fs port b :
  get_usb_bus_path_for_tty fs port = Some b -> has_char slash b = false.
Proof.
  unfold get_usb_bus_path_for_tty.
  destruct (_ || _); [discriminate|]. cbv zeta.
  destruct (negb _); [discriminate|]. intros [= <-]. apply basename_no_slash.
Qed.

Definition unbind_path := "/sys/bus/usb/drivers/cp210x/unbind".
Definition bind_path := "/sys/bus/usb/drivers/cp210x/bind".

Lemma try_reset_unfold fs port :
  try_reset_serial_port fs port =
  match get_usb_bus_path_for_tty fs port with
  | None => (false, [])
  | Some bus_path =>
      if (bus_path =? "") || has_char ":"%char bus_path then (false, [])
      else if negb (path_exists fs unbind_path) || negb (path_exists fs bind_path)
      then (false, [])
      else if negb (write_ok fs unbind_path) then (false, [])
      else if negb (write_ok fs bind_path) then (false, [(unbind_path, bus_path)])
      else (true, [(unbind_path, bus_path); (bind_path, bus_path)])
  end.
Proof. reflexivity. Qed.

(** [try_reset_serial_port] returns True only after writing the same bus
    path, first to the cp210x driver's unbind file and then to its bind
    file; that bus path is non-empty and holds neither [':'] nor ['/'] (it
    names a USB device, not an interface). *)
Theorem try_reset_true_writes fs port :
  fst (try_reset_serial_port fs port) = true ->
  exists b, snd (try_reset_serial_port fs port) = [(unbind_path, b); (bind_path, b)]
    /\ b <> "" /\ has_char ":"%char b = false /\ has_char slash b = false.
Proof.
  rewrite try_reset_unfold.
  destruct (get_usb_bus_path_for_tty fs port) as [b|] eqn:Hb; [|discriminate].
  destruct (String.eqb_spec b "") as [->|Hne]; [discriminate|].
  destruct (has_char ":"%char b) eqn:Hc; [discriminate|]. simpl.
  destruct (path_exists fs unbind_path), (path_exists fs bind_path),
    (write_ok fs unbind_path), (write_ok fs bind_path); simpl; try discriminate.
  intros _. exists b. repeat split; auto. by apply (bus_path_no_slash fs port).
Qed.

Definition ex_real := "/sys/devices/pci0000:00/usb1/1-1/1-1.2/1-1.2:1.0/ttyUSB0".

Definition ex_sysfs (bind_ok : bool) : sysfs :=
  {| path_exists := fun _ => true;
     realpath := fun _ => ex_real;
     write_ok := fun p => if String.eqb p bind_path then bind_ok else true |}.

Lemma try_reset_true_writes_witness :
  fst (try_reset_serial_port (ex_sysfs true) "/dev/ttyUSB0") = true
  /\ exists b, snd (try_reset_serial_port (ex_sysfs true) "/dev/ttyUSB0")
                 = [(unbind_path, b); (bind_path, b)]
      /\ b <> "" /\ has_char ":"%char b = false /\ has_char slash b = false.
Proof.
  split; [vm_compute; reflexivity|].
  apply try_reset_true_writes. vm_compute. reflexivity.
Defined.

(** When [try_reset_serial_port] returns False it has written nothing, or
    only the bus path to the unbind file: a failed bind write leaves the
    device unbound. *)
Theorem try_reset_false_writes fs port :
  fst (try_reset_serial_port fs port) = false ->
  snd (try_reset_serial_port fs port) = []
  \/ exists b, snd (try_reset_serial_port fs port) = [(unbind_path, b)].
Proof.
  rewrite try_reset_unfold.
  destruct (get_usb_bus_path_for_tty fs port) as [b|]; [|by left].
  destruct (_ || has_char _ _); [by left|].
  destruct (negb _ || negb _); [by left|].
  destruct (negb (write_ok fs unbind_path)); [by left|].
  destruct (negb (write_ok fs bind_path)); [eauto|discriminate].
Qed.

Lemma try_reset_false_writes_witness :
  fst (try_reset_serial_port (ex_sysfs false) "/dev/ttyUSB0") = false
  /\ snd (try_reset_serial_port (ex_sysfs false) "/dev/ttyUSB0") = [(unbind_path, "1-1.2")]
  /\ (snd (try_reset_serial_port (ex_sysfs false) "/dev/ttyUSB0") = []
      \/ exists b, snd (try_reset_serial_port (ex_sysfs false) "/dev/ttyUSB0")
                   = [(unbind_path, b)]).
Proof.
  split; [vm_compute; reflexivity|]. split; [vm_compute; reflexivity|].
  apply try_reset_false_writes. vm_compute. reflexivity.
Defined.

(** Sorting. *)
Lemma In_insert_sorted x l q : In q (insert_sorted x l) <-> x = q \/ In q l.
Proof.
  induction l as [|y l IH]; simpl; [tauto|].
  destruct (String.leb x y); simpl; [tauto|]. rewrite IH. tauto.
Qed.

Lemma In_sort l q : In q (sort_strings l) <-> In q l.
Proof.
  induction l as [|x l IH]; simpl; [tauto|]. rewrite In_insert_sorted, IH. tauto.
Qed.

Lemma string_leb_refl s : String.leb s s = true.
Proof. by destruct (String.leb_total s s). Qed.

Lemma string_leb_trans s1 s2 s3 :
  String.leb s1 s2 = true -> String.leb s2 s3 = true -> String.leb s1 s3 = true.
Proof.
  unfold String.leb. revert s2 s3.
  induction s1 as [|c1 r1 IH]; intros [|c2 r2] [|c3 r3]; simpl; auto; try discriminate.
  unfold Ascii.compare.
  destruct (N.compare_spec (N_of_ascii c1) (N_of_ascii c2));
  destruct (N.compare_spec (N_of_ascii c2) (N_of_ascii c3));
  destruct (N.compare_spec (N_of_ascii c1) (N_of_ascii c3));
    intros Ha Hb; try reflexivity; try discriminate; try lia.
  apply (IH r2); assumption.
Qed.

Lemma sort_min l p rest :
  sort_strings l = p :: rest -> forall q, In q l -> String.leb p q = true.
Proof.
  revert p rest. induction l as [|x l IH]; intros p rest Hs q Hq; [destruct Hq|].
  simpl in Hs. destruct (sort_strings l) as [|y r] eqn:El.
  - simpl in Hs. injection Hs as <- _.
    destruct Hq as [<-|Hq]; [apply string_leb_refl|].
    apply In_sort in Hq. rewrite El in Hq. destruct Hq.
  - simpl in Hs. destruct (String.leb x y) eqn:Hxy; injection Hs as <- _.
    + destruct Hq as [<-|Hq]; [apply string_leb_refl|].
      apply (string_leb_trans _ y); [done|]. exact (IH y r eq_refl q Hq).
    + destruct Hq as [<-|Hq].
      * destruct (String.leb_total x y) as [H|H]; [congruence|exact H].
      * exact (IH y r eq_refl q Hq).
Qed.

Lemma insert_sorted_not_nil x l : insert_sorted x l <> [].
Proof. destruct l; simpl; [|destruct (String.leb x s)]; discriminate. Qed.

Lemma sort_nil l : sort_strings l = [] -> l = [].
Proof. destruct l; simpl; [done|]. intros H. by apply insert_sorted_not_nil in H. Qed.

Lemma find_none_iff {A} (f : A -> bool) l :
  List.find f l = None <-> Forall (fun x => f x = false) l.
Proof.
  induction l as [|x l IH]; simpl; [split; auto|].
  destruct (f x) eqn:Hx; split; intros H.
  - discriminate.
  - inversion H; congruence.
  - constructor; [done|]. by apply IH.
  - apply IH. by inversion H.
Qed.

Lemma filter_nil_iff {A} (f : A -> bool) l :
  List.filter f l = [] <-> Forall (fun x => f x = false) l.
Proof.
  induction l as [|x l IH]; simpl; [split; auto|].
  destruct (f x) eqn:Hx; split; intros H.
  - discriminate.
  - inversion H; congruence.
  - constructor; [done|]. by apply IH.
  - apply IH. by inversion H.
Qed.

(** The [SERIAL_PORT] value as [detect_esp32_port] reads it. *)
Definition env_port (d : dev_env) : string :=
  strip (match serial_port_env d with Some v => v | None => "" end).

(** [detect_esp32_port] only ever returns a path that exists. *)
Theorem detect_port_exists d p :
  detect_esp32_port d = Some p -> dev_exists d p = true.
Proof.
  unfold detect_esp32_port. cbv zeta.
  destruct (negb _ && _) eqn:He.
  - intros [= <-]. apply andb_prop in He. tauto.
  - destruct (List.find (dev_exists d) priority_ports) as [q|] eqn:Hf.
    + intros [= <-]. by apply List.find_some in Hf as [_ ?].
    + destruct (sort_strings _) as [|q r] eqn:Hs; [discriminate|]. intros [= <-].
      assert (Hin : In q (glob d "/dev/ttyUSB" ++ glob d "/dev/ttyACM")).
      { apply In_sort. rewrite Hs. by left. }
      unfold dev_exists. apply existsb_exists. exists q. split; [|apply String.eqb_refl].
      apply in_app_or in Hin. unfold glob in Hin.
      destruct Hin as [Hin|Hin]; by apply List.filter_In in Hin as [? _].
Qed.

Definition ex_dev (env : option string) : dev_env :=
  {| serial_port_env := env;
     existing := ["/dev/ttyUSB3"; "/dev/ttyACM7"; "/dev/null"] |}.

Lemma detect_port_exists_witness :
  detect_esp32_port (ex_dev (Some " /dev/null ")) = Some "/dev/null"
  /\ dev_exists (ex_dev (Some " /dev/null ")) "/dev/null" = true.
Proof.
  split; [vm_compute; reflexivity|].
  apply detect_port_exists. vm_compute. reflexivity.
Defined.

(** [detect_esp32_port] returns None exactly when the stripped
    [SERIAL_PORT] is empty or missing, none of the four usual ports exists,
    and no existing path matches [/dev/ttyUSB*] or [/dev/ttyACM*]. *)
Theorem detect_none d :
  detect_esp32_port d = None <->
  (env_port d = "" \/ dev_exists d (env_port d) = false)
  /\ Forall (fun q => dev_exists d q = false) priority_ports
  /\ Forall (fun q => glob_match "/dev/ttyUSB" q = false
                      /\ glob_match "/dev/ttyACM" q = false) (existing d).
Proof.
  unfold detect_esp32_port, env_port. cbv zeta. set (e := strip _).
  destruct (negb (e =? "") && dev_exists d e) eqn:He.
  - split; [discriminate|]. intros [[He'|He'] _]; apply andb_prop in He as [H1 H2].
    + rewrite He' in H1. discriminate.
    + congruence.
  - destruct (List.find (dev_exists d) priority_ports) eqn:Hf.
    + split; [discriminate|]. intros [_ [Hp _]]. apply find_none_iff in Hp. congruence.
    + apply find_none_iff in Hf.
      destruct (sort_strings _) as [|q r] eqn:Hs.
      * split; [intros _|done].
        apply sort_nil, app_eq_nil in Hs as [H1 H2]. unfold glob in H1, H2.
        rewrite filter_nil_iff in H1, H2. split; [|split; [done|]].
        -- destruct (e =? "") eqn:E; simpl in He; [left; by apply String.eqb_eq|by right].
        -- rewrite Forall_forall in H1, H2 |- *. intros q Hq. auto.
      * split; [discriminate|]. intros [_ [_ Hg]]. exfalso.
        assert (H1 : glob d "/dev/ttyUSB" = []).
        { apply filter_nil_iff. rewrite Forall_forall in Hg |- *. intros q' Hq'.
          apply Hg, Hq'. }
        assert (H2 : glob d "/dev/ttyACM" = []).
        { apply filter_nil_iff. rewrite Forall_forall in Hg |- *. intros q' Hq'.
          apply Hg, Hq'. }
        rewrite H1, H2 in Hs. discriminate.
Qed.

Lemma detect_none_witness :
  detect_esp32_port {| serial_port_env := Some "  "; existing := ["/dev/ttyS0"; "/dev/ttyUSB0x/a"] |}
  = None.
Proof.
  apply detect_none. split; [left; reflexivity|]. split.
  - repeat constructor.
  - repeat constructor.
Defined.

(** When the port comes from the [/dev/ttyUSB*] / [/dev/ttyACM*] scan (not
    from [SERIAL_PORT] nor the list of usual ports), it is the
    lexicographically smallest of the matching paths. *)
Theorem detect_glob_minimum d p q :
  detect_esp32_port d = Some p -> ~ In p priority_ports -> p <> env_port d ->
  In q (existing d) -> glob_match "/dev/ttyUSB" q || glob_match "/dev/ttyACM" q = true ->
  String.leb p q = true.
Proof.
  unfold detect_esp32_port, env_port. cbv zeta. set (e := strip _).
  destruct (negb (e =? "") && dev_exists d e) eqn:He.
  { intros [= <-] _ Hne. by destruct Hne. }
  destruct (List.find (dev_exists d) priority_ports) as [x|] eqn:Hf.
  - intros [= <-] Hp. exfalso. apply Hp. by apply List.find_some in Hf as [? _].
  - destruct (sort_strings _) as [|x r] eqn:Hs; [discriminate|]. intros [= <-] _ _ Hq Hm.
    apply (sort_min _ _ _ Hs). apply in_or_app. unfold glob.
    apply orb_prop in Hm as [Hm|Hm]; [left|right]; apply List.filter_In; auto.
Qed.

Lemma detect_glob_minimum_witness :
  detect_esp32_port (ex_dev (Some "/dev/missing")) = Some "/dev/ttyACM7"
  /\ String.leb "/dev/ttyACM7" "/dev/ttyUSB3" = true.
Proof.
  split; [vm_compute; reflexivity|].
  apply (detect_glob_minimum (ex_dev (Some "/dev/missing")) "/dev/ttyACM7" "/dev/ttyUSB3").
  - vm_compute. reflexivity.
  - unfold priority_ports. simpl. intuition discriminate.
  - vm_compute. intros H. discriminate H.
  - simpl. tauto.
  - vm_compute. reflexivity.
Defined.

End HardwareProps.

(* ------------------------------------------------------------------ *)
(** ** flash_esp32.flash_firmware: the retry loop                      *)
(* ------------------------------------------------------------------ *)

Module FlasherExtra.
Import Flasher FlasherProps.

Lemma retry_loop_tool_runs k a tool r m :
  In (EvTool m) (snd (retry_loop k a tool r)) ->
  (a <= m < a + k)%nat /\
  forall j, (a <= j < m)%nat -> exists e, tool j = ToolFail e /\ is_port_error e = true.
Proof.
  rewrite (retry_loop_recover_irrelevant _ _ _ r true).
  revert a. induction k as [|k IH]; intros a; simpl; [done|].
  destruct (tool a) as [|e|] eqn:Ta;
    [intros [[= <-]|[]]; split; [lia|intros; lia]| |intros [[= <-]|[]]; split; [lia|intros; lia]].
  specialize (IH (S a)). destruct (retry_loop k (S a) tool true) as [res tr]. simpl in IH.
  destruct (is_port_error e) eqn:Pe.
  - assert (Hcont : forall pre, (forall n, ~ In (EvTool n) pre) ->
              In (EvTool m) (EvTool a :: pre ++ tr) ->
              (a <= m < a + S k)%nat /\ forall j, (a <= j < m)%nat ->
                exists e, tool j = ToolFail e /\ is_port_error e = true).
    { intros pre Hpre [[= <-]|Hin]; [split; [lia|intros; lia]|].
      apply in_app_or in Hin as [Hin|Hin]; [by apply Hpre in Hin|].
      destruct (IH Hin) as [Hr Hj]. split; [lia|].
      intros j Hj'. destruct (Nat.eq_dec j a) as [->|Hne]; [eauto|apply Hj; lia]. }
    assert (Hpre1 : forall n, ~ In (EvTool n) [EvRecover; EvSleep])
      by (intros n [H|[H|[]]]; discriminate).
    assert (Hpre2 : forall n, ~ In (EvTool n) [EvSleep])
      by (intros n [H|[]]; discriminate).
    simpl. destruct (Nat.eqb a 1); simpl; [exact (Hcont _ Hpre1)|].
    destruct (Nat.ltb a max_attempts); simpl;
      [exact (Hcont _ Hpre2)|intros [[= <-]|[]]; split; [lia|intros; lia]].
  - simpl. destruct (Nat.ltb a max_attempts); simpl;
      intros [[= <-]|[]]; split; try lia; intros; lia.
Qed.

(** Each run of the flashing tool is attempt 1, 2 or 3, and attempt [m]
    only runs after every earlier attempt failed with a port error
    ([could not open], [Errno 5], [Input/output error], [port is busy]):
    any other failure is never retried. *)
Theorem flash_tool_runs port_arg detected fw pre tool r m :
  In (EvTool m) (snd (flash_firmware port_arg detected fw pre tool r)) ->
  (1 <= m <= 3)%nat /\
  forall j, (1 <= j < m)%nat -> exists e, tool j = ToolFail e /\ is_port_error e = true.
Proof.
  unfold flash_firmware.
  destruct (resolve_port port_arg detected) as [p|]; [|intros [H|[]]; discriminate].
  destruct (String.eqb p ""); [intros [H|[]]; discriminate|].
  destruct fw; [|intros [H|[]]; discriminate]. cbv zeta.
  pose proof (retry_loop_tool_runs max_attempts 1 tool r m) as Hr.
  destruct (retry_loop max_attempts 1 tool r) as [res tr]. simpl in Hr |- *.
  intros Hin. apply in_app_or in Hin as [Hin|Hin].
  - destruct pre as [|msg]; [destruct Hin|].
    destruct (_ || _); [destruct Hin as [H|[]]; discriminate|destruct Hin].
  - destruct (Hr Hin) as [Hm Hj]. split; [unfold max_attempts in Hm; lia|exact Hj].
Qed.

Definition busy_twice (n : nat) : tool_outcome :=
  match n with
  | 1%nat | 2%nat => ToolFail (of_ascii "serial port is busy")
  | _ => ToolOk
  end.

Lemma flash_tool_runs_witness :
  In (EvTool 3) (snd (flash_firmware (Some "/dev/ttyUSB0") None true PreOk busy_twice false))
  /\ exists e, busy_twice 2 = ToolFail e /\ is_port_error e = true.
Proof.
  assert (Hin : In (EvTool 3)
     (snd (flash_firmware (Some "/dev/ttyUSB0") None true PreOk busy_twice false))).
  { vm_compute. repeat (first [left; reflexivity | right]). }
  split; [exact Hin|].
  apply (proj2 (flash_tool_runs (Some "/dev/ttyUSB0") None true PreOk busy_twice false 3 Hin)).
  lia.
Defined.

Lemma retry_loop_outcome k a tool r :
  (fst (retry_loop k a tool r) = Some true ->
     exists n, In (EvTool n) (snd (retry_loop k a tool r)) /\ tool n = ToolOk)
  /\ (fst (retry_loop k a tool r) = None ->
     exists n, In (EvTool n) (snd (retry_loop k a tool r)) /\ tool n = ToolRaise).
Proof.
  rewrite (retry_loop_recover_irrelevant _ _ _ r true).
  revert a. induction k as [|k IH]; intros a; simpl; [split; discriminate|].
  destruct (tool a) as [|e|] eqn:Ta;
    [split; [exists a; split; [by left|done]|discriminate]| |
     split; [discriminate|exists a; split; [by left|done]]].
  specialize (IH (S a)). destruct (retry_loop k (S a) tool true) as [res tr].
  simpl in IH. destruct IH as [IH1 IH2].
  assert (Hcont : forall pre,
    (res = Some true -> exists n, In (EvTool n) (EvTool a :: pre ++ tr) /\ tool n = ToolOk)
    /\ (res = None -> exists n, In (EvTool n) (EvTool a :: pre ++ tr) /\ tool n = ToolRaise)).
  { intros pre. split; intros Hres;
      [destruct (IH1 Hres) as [n [Hn Tn]]|destruct (IH2 Hres) as [n [Hn Tn]]];
      exists n; (split; [right; apply in_or_app; by right|done]). }
  destruct (is_port_error e); simpl.
  - destruct (Nat.eqb a 1); simpl; [exact (Hcont [EvRecover; EvSleep])|].
    destruct (Nat.ltb a max_attempts); simpl; [exact (Hcont [EvSleep])|split; discriminate].
  - destruct (Nat.ltb a max_attempts); simpl; split; discriminate.
Qed.

Lemma retry3_reaches tool n :
  (1 <= n <= 3)%nat ->
  (forall m, (1 <= m < n)%nat -> exists e, tool m = ToolFail e /\ is_port_error e = true) ->
  fst (retry_loop 3 1 tool true) = match tool n with
                                    | ToolOk => Some true
                                    | ToolRaise => None
                                    | ToolFail _ => fst (retry_loop 3 1 tool true)
                                    end.
Proof.
  intros Hn Hm.
  destruct n as [|[|[|[|n]]]]; try lia; simpl.
  - destruct (tool 1%nat); reflexivity.
  - destruct (Hm 1%nat ltac:(lia)) as [e1 [T1 P1]]. rewrite T1, P1. simpl.
    destruct (tool 2%nat); reflexivity.
  - destruct (Hm 1%nat ltac:(lia)) as [e1 [T1 P1]]. rewrite T1, P1. simpl.
    destruct (Hm 2%nat ltac:(lia)) as [e2 [T2 P2]]. rewrite T2, P2. simpl.
    destruct (tool 3%nat); reflexivity.
Qed.

(** With a port and the firmware file present, [flash_firmware] returns
    True exactly when some attempt [n <= 3] of the tool succeeds after all
    earlier attempts failed with a port error; it raises exactly when such
    an attempt raises (e.g. esptool.py is not installed), without a retry. *)
Theorem flash_outcome port_arg detected p pre tool r :
  resolve_port port_arg detected = Some p -> p <> ""%string ->
  (fst (flash_firmware port_arg detected true pre tool r) = Some true <->
   exists n, (1 <= n <= 3)%nat /\ tool n = ToolOk /\
     forall m, (1 <= m < n)%nat -> exists e, tool m = ToolFail e /\ is_port_error e = true)
  /\ (fst (flash_firmware port_arg detected true pre tool r) = None <->
   exists n, (1 <= n <= 3)%nat /\ tool n = ToolRaise /\
     forall m, (1 <= m < n)%nat -> exists e, tool m = ToolFail e /\ is_port_error e = true).
Proof.
  intros Hp Hne. rewrite (flash_firmware_unfold _ _ _ _ _ _ Hp Hne).
  rewrite (retry_loop_recover_irrelevant _ _ _ r true).
  pose proof (retry_loop_outcome max_attempts 1 tool true) as [Ho1 Ho2].
  pose proof (retry_loop_tool_runs max_attempts 1 tool true) as Hr.
  pose proof (retry3_reaches tool) as Hreach. unfold max_attempts in *.
  destruct (retry_loop 3 1 tool true) as [res tr] eqn:E. simpl in *.
  split; split.
  - intros Hres. destruct (Ho1 Hres) as [n [Hn Tn]]. destruct (Hr n Hn) as [Hb Hj].
    exists n. repeat split; auto; lia.
  - intros [n [Hn [Tn Hm]]]. specialize (Hreach n Hn Hm). by rewrite Tn in Hreach.
  - intros Hres. destruct (Ho2 Hres) as [n [Hn Tn]]. destruct (Hr n Hn) as [Hb Hj].
    exists n. repeat split; auto; lia.
  - intros [n [Hn [Tn Hm]]]. specialize (Hreach n Hn Hm). by rewrite Tn in Hreach.
Qed.

Lemma flash_outcome_witness :
  fst (flash_firmware (Some "/dev/ttyUSB0") None true PreOk busy_twice true) = Some true.
Proof.
  destruct (flash_outcome (Some "/dev/ttyUSB0") None "/dev/ttyUSB0" PreOk busy_twice true
              eq_refl ltac:(discriminate)) as [[_ H] _].
  apply H. exists 3%nat. split; [lia|]. split; [reflexivity|].
  intros m Hm. exists (of_ascii "serial port is busy"). split; [|reflexivity].
  destruct m as [|[|[|m]]]; try lia; reflexivity.
Defined.

Lemma no_recover_late k a tool r :
  (2 <= a)%nat -> ~ In EvRecover (snd (retry_loop k a tool r)).
Proof.
  rewrite (retry_loop_recover_irrelevant _ _ _ r true).
  revert a. induction k as [|k IH]; intros a Ha; simpl; [tauto|].
  destruct (tool a) as [|e|]; [intros [H|[]]; discriminate| |intros [H|[]]; discriminate].
  specialize (IH (S a) ltac:(lia)). destruct (retry_loop k (S a) tool true) as [res tr].
  simpl in IH. rewrite (proj2 (Nat.eqb_neq a 1) ltac:(lia)).
  destruct (is_port_error e), (Nat.ltb a max_attempts); simpl;
    intros H; repeat (destruct H as [H|H]; [discriminate H|]); try contradiction; auto.
Qed.

Lemma retry_loop_fail_step k a tool e :
  tool a = ToolFail e -> is_port_error e = true -> Nat.eqb a 1 = true ->
  retry_loop (S k) a tool true
  = (fst (retry_loop k (S a) tool true),
     EvTool a :: EvRecover :: EvSleep :: snd (retry_loop k (S a) tool true)).
Proof.
  intros T P A. cbn [retry_loop]. rewrite T, P, A. simpl.
  by destruct (retry_loop k (S a) tool true).
Qed.

(** Port Recovery ([try_reset_serial_port]) is called at most once per
    flash, and only right after attempt 1 failed with a port error. *)
Theorem flash_recover_once port_arg detected fw pre tool r :
  In EvRecover (snd (flash_firmware port_arg detected fw pre tool r)) ->
  exists e pre_tr post_tr, tool 1%nat = ToolFail e /\ is_port_error e = true
    /\ snd (flash_firmware port_arg detected fw pre tool r)
       = pre_tr ++ EvTool 1 :: EvRecover :: post_tr
    /\ ~ In EvRecover pre_tr /\ ~ In EvRecover post_tr.
Proof.
  unfold flash_firmware.
  destruct (resolve_port port_arg detected) as [p|]; [|intros [H|[]]; discriminate].
  destruct (String.eqb p ""); [intros [H|[]]; discriminate|].
  destruct fw; [|intros [H|[]]; discriminate]. cbv zeta.
  set (hint := match pre with PreOk => [] | PreRaise _ => _ end).
  assert (Hh : ~ In EvRecover hint).
  { subst hint. destruct pre; [tauto|]. destruct (_ || _); simpl; intuition discriminate. }
  clearbody hint.
  rewrite (retry_loop_recover_irrelevant _ _ _ r true). unfold max_attempts.
  pose proof (no_recover_late 2 2 tool true ltac:(lia)) as Hl.
  assert (Hone : forall t, retry_loop 3 1 tool true = t -> ~ In EvRecover (snd t) ->
            ~ In EvRecover (snd (let '(r0, tr) := retry_loop 3 1 tool true in (r0, hint ++ tr)))).
  { intros t -> Ht. destruct t as [r0 tr]. simpl. rewrite in_app_iff. tauto. }
  destruct (tool 1%nat) as [|e|] eqn:T1.
  - intros Hin. exfalso. revert Hin. apply (Hone (Some true, [EvTool 1])).
    + simpl. by rewrite T1.
    + intros [H|[]]. discriminate.
  - destruct (is_port_error e) eqn:Pe.
    + rewrite (retry_loop_fail_step 2 1 tool e T1 Pe eq_refl). simpl. intros _.
      exists e, hint, (EvSleep :: snd (retry_loop 2 2 tool true)). repeat split; auto.
      intros [H|H]; [discriminate|auto].
    + intros Hin. exfalso. revert Hin. apply (Hone (Some false, [EvTool 1])).
      * simpl. by rewrite T1, Pe.
      * intros [H|[]]. discriminate.
  - intros Hin. exfalso. revert Hin. apply (Hone (None, [EvTool 1])).
    + simpl. by rewrite T1.
    + intros [H|[]]. discriminate.
Qed.

Lemma flash_recover_once_witness :
  exists e pre_tr post_tr, busy_twice 1%nat = ToolFail e /\ is_port_error e = true
    /\ snd (flash_firmware (Some "/dev/ttyUSB0") None true PreOk busy_twice false)
       = pre_tr ++ EvTool 1 :: EvRecover :: post_tr
    /\ ~ In EvRecover pre_tr /\ ~ In EvRecover post_tr.
Proof.
  apply flash_recover_once. vm_compute. repeat (first [left; reflexivity | right]).
Defined.

End FlasherExtra.

(* ------------------------------------------------------------------ *)
(** ** Text files and the evidence copy of run_test_runner             *)
(* ------------------------------------------------------------------ *)

Module FilesExtra.
Import Files EvidenceProps.

Lemma univ_nl_no_cr_out_n n s : (length s <= n)%nat -> ~ In 13 (univ_nl s).
Proof.
  revert s. induction n as [|n IH]; intros s Hl.
  { destruct s; [simpl; tauto|simpl in Hl; lia]. }
  destruct s as [|c r]; [simpl; tauto|]. simpl in Hl. simpl.
  destruct (Z.eqb_spec c 13).
  - destruct r as [|d r'].
    + intros [H|[]]. discriminate.
    + destruct (Z.eqb_spec d 10); intros [H|H]; try discriminate;
        revert H; apply IH; simpl in *; lia.
  - intros [H|H]; [congruence|]. revert H. apply IH. lia.
Qed.

Lemma univ_nl_idem s : univ_nl (univ_nl s) = univ_nl s.
Proof. apply univ_nl_no_cr. apply (univ_nl_no_cr_out_n (length s)). lia. Qed.

(** Text read from a file and written back unchanged reads back the same:
    the universal-newline translation of the read is idempotent. *)
Theorem reread_after_rewrite (fs fs' : fsys) p s :
  read_file fs p = Some s -> write_file fs p s = Some fs' -> read_file fs' p = Some s.
Proof.
  unfold read_file, write_file. intros Hr Hw.
  destruct (fs !! p) as [[s0| |]|]; try discriminate.
  injection Hr as <-. injection Hw as <-.
  rewrite lookup_insert_eq. by rewrite univ_nl_idem.
Qed.

Lemma reread_after_rewrite_witness :
  read_file (<["log" := FText (of_ascii "rst:" ++ [13; 10])]> ∅) "log" = Some (of_ascii "rst:" ++ [10])
  /\ exists fs', write_file (<["log" := FText (of_ascii "rst:" ++ [13; 10])]> ∅) "log"
                   (of_ascii "rst:" ++ [10]) = Some fs'
    /\ read_file fs' "log" = Some (of_ascii "rst:" ++ [10]).
Proof.
  split; [vm_compute; reflexivity|]. eexists. split; [reflexivity|].
  apply (reread_after_rewrite (<["log" := FText (of_ascii "rst:" ++ [13; 10])]> ∅) _ "log");
    [vm_compute|]; reflexivity.
Defined.

End FilesExtra.

Module InvokerExtra.
Import Files Invoker InvokerProps FilesExtra.

Lemma reconcile_spec d r :
  exists t, reconcile d r = [t] /\ t_status t <> SKIP
    /\ (returncode r = 0 -> t = mk_test PASS [])
    /\ (t_status t = FAIL -> returncode r <> 0).
Proof.
  unfold reconcile.
  destruct (Z.eqb_spec (returncode r) 0) as [H0|H0]; cbn [negb andb].
  - destruct (contains passed_marker (stdout r) || contains passed_alt_marker (stdout r));
      eexists; (split; [reflexivity|]); repeat split; simpl; try discriminate; auto.
  - destruct (contains failed_marker (stdout r) && data_truthy d).
    + destruct (any_in reconcile_boot_patterns _);
        eexists; (split; [reflexivity|]); repeat split; simpl; try discriminate;
        intros; try contradiction; auto.
    + destruct (contains passed_marker (stdout r) || contains passed_alt_marker (stdout r));
        eexists; (split; [reflexivity|]); repeat split; simpl; try discriminate;
        intros; try contradiction; auto.
Qed.

(** A finished test procedure always gives exactly one outcome, never
    SKIP; exit code 0 always gives PASS with an empty failure text
    (whatever the stdout markers and the boot evidence), and FAIL only
    comes with a non-zero exit code. *)
Theorem reconcile_outcome d r :
  exists t, reconcile d r = [t] /\ t_status t <> SKIP
    /\ (returncode r = 0 -> t = mk_test PASS [])
    /\ (t_status t = FAIL -> returncode r <> 0).
Proof. exact (reconcile_spec d r). Qed.

Lemma reconcile_outcome_witness :
  reconcile None {| returncode := 0; stdout := of_ascii "UART boot validation FAILED";
                    stderr := of_ascii "boom" |} = [mk_test PASS []].
Proof.
  destruct (reconcile_outcome None {| returncode := 0;
              stdout := of_ascii "UART boot validation FAILED"; stderr := of_ascii "boom" |})
    as [t [Ht [_ [H0 _]]]].
  rewrite Ht, (H0 eq_refl). reflexivity.
Defined.

(** [run_test_runner] always returns a single outcome; it is SKIP exactly
    when run_tests.sh does not exist. *)
Theorem run_test_runner_single fs dir bmf runner_exists proc :
  exists t, fst (run_test_runner fs dir bmf runner_exists proc) = [t]
    /\ (t_status t = SKIP <-> runner_exists = false).
Proof.
  unfold run_test_runner. destruct (resolve_evidence fs dir bmf) as [d fs1].
  destruct runner_exists; [destruct proc as [r|msg]|].
  - destruct (reconcile_spec d r) as [t [Ht [Hs _]]]. exists t.
    split; [exact Ht|]. split; [contradiction|discriminate].
  - exists (mk_test FAIL msg). split; [done|]. split; discriminate.
  - eexists. split; [reflexivity|]. done.
Qed.

Lemma run_test_runner_single_witness :
  fst (run_test_runner (ex_fs []) ex_dir None false (ProcRaise [])) = [mk_test SKIP (of_ascii "Test runner not found")]
  /\ exists t, fst (run_test_runner (ex_fs []) ex_dir None false (ProcRaise [])) = [t]
       /\ (t_status t = SKIP <-> false = false).
Proof.
  split; [reflexivity|]. apply run_test_runner_single.
Defined.

Lemma resolve_evidence_frame fs dir bmf p :
  p <> boot_log_path dir -> snd (resolve_evidence fs dir bmf) !! p = fs !! p.
Proof.
  intros Hp. unfold resolve_evidence, write_file.
  destruct (data_truthy _); [done|]. destruct bmf as [b|]; [|done].
  destruct (fs !! b); [|done]. destruct (read_file fs b); [|done].
  destruct (fs !! boot_log_path dir) as [[]|]; simpl; try done;
    apply lookup_insert_ne; congruence.
Qed.

(** [run_test_runner] changes no file but boot_messages.log of the
    results directory (the evidence copy); the passed evidence file in
    particular is never modified. *)
Theorem run_test_runner_frame fs dir bmf runner_exists proc p :
  p <> boot_log_path dir ->
  snd (run_test_runner fs dir bmf runner_exists proc) !! p = fs !! p.
Proof.
  intros Hp. unfold run_test_runner.
  pose proof (resolve_evidence_frame fs dir bmf p Hp) as H.
  destruct (resolve_evidence fs dir bmf) as [d fs1]. simpl in H.
  destruct runner_exists; [destruct proc|]; exact H.
Qed.

Definition ex_fs2 : fsys :=
  <["results/boot_messages.log" := FText []]> (<["capture.log" := FText (of_ascii "rst:")]> ∅).

Lemma run_test_runner_frame_witness :
  snd (run_test_runner ex_fs2 ex_dir (Some "capture.log") false (ProcRaise [])) !! "capture.log"
  = Some (FText (of_ascii "rst:")).
Proof.
  rewrite (run_test_runner_frame ex_fs2 ex_dir (Some "capture.log") false (ProcRaise [])
             "capture.log" ltac:(vm_compute; discriminate)).
  reflexivity.
Defined.

(** After [resolve_evidence] (lines 113-135) returns evidence [d],
    boot_messages.log reads as exactly [d], unless that file cannot be
    opened for writing: the evidence the reconciliation uses is the one
    left on disk. *)
Theorem evidence_kept_in_log fs dir bmf d :
  fst (resolve_evidence fs dir bmf) = Some d ->
  fs !! boot_log_path dir <> Some FNoAccess ->
  read_file (snd (resolve_evidence fs dir bmf)) (boot_log_path dir) = Some d.
Proof.
  intros Hd Hna. unfold resolve_evidence in *.
  destruct (data_truthy (read_file fs (boot_log_path dir))); [done|].
  destruct bmf as [b|]; [|done]. destruct (fs !! b); [|done].
  destruct (read_file fs b) as [s|] eqn:Hb; [|done].
  unfold write_file in *. destruct (fs !! boot_log_path dir) as [[]|] eqn:Hl; simpl in *;
    try congruence; injection Hd as <-; unfold read_file; rewrite lookup_insert_eq;
    unfold read_file in Hb; destruct (fs !! b) as [[]|]; try discriminate;
    injection Hb as <-; by rewrite univ_nl_idem.
Qed.

Lemma evidence_kept_in_log_witness :
  read_file (snd (resolve_evidence ex_fs2 ex_dir (Some "capture.log"))) "results/boot_messages.log"
  = Some (of_ascii "rst:").
Proof.
  apply (evidence_kept_in_log ex_fs2 ex_dir (Some "capture.log")); [reflexivity|].
  vm_compute. discriminate.
Defined.

End InvokerExtra.

(* ------------------------------------------------------------------ *)
(** ** Run Orchestrator: what main does and when                        *)
(* ------------------------------------------------------------------ *)

Module OrchestratorExtra.
Import Invoker Orchestrator OrchestratorProps.

Lemma in_bind {A B} (m : M A) (f : A -> M B) x :
  In x (fst (m ≫= f)) <-> In x (fst m) \/ exists a, snd m = Some a /\ In x (fst (f a)).
Proof.
  destruct m as [tr [a|]]; unfold mbind, M_bind; simpl.
  - destruct (f a) as [tr' r] eqn:E. simpl. rewrite in_app_iff. split.
    + intros [H|H]; [by left|right; exists a; by rewrite E].
    + intros [H|[a' [[= <-] H]]]; [by left|rewrite E in H; by right].
  - split; [by left|intros [H|[a' [H _]]]; [done|discriminate]].
Qed.

(** The same run when [os.makedirs] and the three report writers succeed. *)
Definition all_ok (e : orch_env) : orch_env :=
  {| load := load e; flash_result := flash_result e; port1 := port1 e;
     reset1 := reset1 e; stale := stale e; port2 := port2 e; reset2 := reset2 e;
     capture := capture e; evidence_write_ok := evidence_write_ok e;
     makedirs_ok := true; summary_write_ok := true; junit_write_ok := true;
     meta_write_ok := true; tests_of := tests_of e |}.

(** [m] does what [m'] does, except that it may raise earlier. *)
Definition below {A} (m m' : M A) : Prop :=
  (forall x, In x (fst m) -> x = MCrash \/ In x (fst m'))
  /\ (forall a, snd m = Some a -> snd m' = Some a).

Lemma below_refl {A} (m : M A) : below m m.
Proof. split; auto. Qed.

Lemma below_bind {A B} (m m' : M A) (f f' : A -> M B) :
  below m m' -> (forall a, below (f a) (f' a)) -> below (m ≫= f) (m' ≫= f').
Proof.
  destruct m as [tr [a|]], m' as [tr' [a'|]]; intros [H1 H2] Hf; unfold mbind, M_bind.
  - specialize (H2 a eq_refl). injection H2 as ->.
    destruct (Hf a) as [G1 G2].
    destruct (f a) as [t1 r1], (f' a) as [t2 r2]. split; cbn [fst snd] in *.
    + intros x Hx. apply in_app_iff in Hx as [Hx|Hx].
      * destruct (H1 x Hx); [by left|right; apply in_app_iff; by left].
      * destruct (G1 x Hx); [by left|right; apply in_app_iff; by right].
    + exact G2.
  - discriminate (H2 a eq_refl).
  - split; [|discriminate]. intros x Hx. destruct (H1 x Hx); [by left|].
    destruct (f' a') as [t2 r2]. right. apply in_app_iff. by left.
  - split; [exact H1|discriminate].
Qed.

Lemma below_may_raise b : below (may_raise b) (mret tt).
Proof.
  destruct b; [apply below_refl|]. split; [|discriminate].
  intros x [<-|[]]. by left.
Qed.

Lemma report_below e bn tgt c ts :
  below (report e bn tgt c ts) (report (all_ok e) bn tgt c ts).
Proof.
  unfold report.
  apply below_bind; [apply below_may_raise|intros []].
  apply below_bind; [apply below_may_raise|intros []].
  apply below_bind; [apply below_may_raise|intros []].
  apply below_refl.
Qed.

Lemma main_below dir e : below (main dir e) (main dir (all_ok e)).
Proof.
  unfold main. cbn [all_ok load flash_result].
  destruct (load e) as [msg|m]; [apply below_refl|].
  destruct (build_number m); [|apply below_refl].
  destruct (artifact_name m), (device_target m) as [tgt|], (test_plan m);
    try apply below_refl.
  apply below_bind; [apply below_may_raise|intros []].
  destruct (String.eqb tgt "esp32").
  - apply below_bind; [apply below_refl|intros []].
    destruct (flash_result e) as [[]|]; [|..|apply below_refl].
    + apply below_bind; [apply below_refl|intros []].
      apply below_bind; [apply below_refl|intros bmf].
      apply below_bind; [apply below_refl|intros []].
      apply (report_below e).
    + apply below_bind; [apply below_refl|intros []]. apply (report_below e).
  - apply below_bind; [apply below_refl|intros []]. apply (report_below e).
Qed.

Lemma main_events_ok dir e x :
  In x (fst (main dir e)) -> x = MCrash \/ In x (fst (main dir (all_ok e))).
Proof. apply (proj1 (main_below dir e)). Qed.

Lemma all_ok_load e : load (all_ok e) = load e.
Proof. reflexivity. Qed.
Lemma all_ok_flash e : flash_result (all_ok e) = flash_result e.
Proof. reflexivity. Qed.
Lemma all_ok_makedirs e : makedirs_ok (all_ok e) = true.
Proof. reflexivity. Qed.
Lemma all_ok_explicit e : explicit_reset (all_ok e) = explicit_reset e.
Proof. reflexivity. Qed.
Lemma all_ok_stale dir e : stale_recapture dir (all_ok e) = stale_recapture dir e.
Proof. reflexivity. Qed.
Lemma all_ok_tests e : tests_of (all_ok e) = tests_of e.
Proof. reflexivity. Qed.
Lemma may_raise_true : may_raise true = mret tt.
Proof. reflexivity. Qed.

Lemma in_bind_ret {B} (f : unit -> M B) x :
  In x (fst (mret tt ≫= f)) <-> In x (fst (f tt)).
Proof. unfold mbind, M_bind, mret, M_ret. destruct (f tt). reflexivity. Qed.

Lemma report_all_ok_events e bn tgt c ts x :
  In x (fst (report (all_ok e) bn tgt c ts)) ->
  MReport {| s_status := if c =? 0 then PASS else FAIL; s_tests := ts;
             s_build_number := bn; s_device_target := tgt |} = x
  \/ MExit c = x.
Proof. simpl. tauto. Qed.

Ltac all_ok_in H :=
  unfold main in H;
  rewrite ?all_ok_load, ?all_ok_flash, ?all_ok_makedirs, ?all_ok_explicit,
    ?all_ok_stale, ?all_ok_tests, ?may_raise_true in H.

Lemma explicit_reset_events e x :
  In x (fst (explicit_reset e)) -> x = MReset \/ x = MDiag \/ x = MCrash.
Proof.
  unfold explicit_reset. destruct (port_truthy (port1 e)); [|simpl; tauto].
  destruct (reset1 e) as [[]|]; simpl; intuition.
Qed.

Lemma stale_recapture_events dir e x :
  In x (fst (stale_recapture dir e)) ->
  (x = MReset \/ x = MCapture \/ x = MSaveEvidence \/ x = MDiag \/ x = MCrash)
  /\ (x = MCapture -> port_truthy (port2 e) = true /\ stale e = true)
  /\ (x = MSaveEvidence ->
        fst (capture e) = true /\ truthy (snd (capture e)) = true
        /\ evidence_write_ok e = true).
Proof.
  unfold stale_recapture.
  destruct (port_truthy (port2 e)) eqn:Hp, (stale e) eqn:Hs; simpl; try tauto.
  destruct (reset2 e); [|simpl; intuition congruence].
  destruct (capture e) as [ok data]. simpl.
  destruct ok, (truthy data) eqn:Ht; simpl;
    [destruct (evidence_write_ok e) eqn:Hw; simpl|..]; intuition congruence.
Qed.

(** The events of the run between flashing and testing. *)
Lemma main_middle dir e x :
  In x (fst (main dir (all_ok e))) -> x = MReset \/ x = MCapture \/ x = MSaveEvidence ->
  (exists m, load e = LoadOk m /\ device_target m = Some "esp32"%string)
  /\ flash_result e = Some true
  /\ (In x (fst (explicit_reset e)) \/ In x (fst (stale_recapture dir e))).
Proof.
  intros Hin Hx. all_ok_in Hin.
  destruct (load e) as [msg|m] eqn:Hl; [simpl in Hin; intuition congruence|].
  destruct (build_number m) as [bn|]; [|simpl in Hin; intuition congruence].
  destruct (artifact_name m); [|simpl in Hin; intuition congruence].
  destruct (device_target m) as [tgt|] eqn:Ht; [|simpl in Hin; intuition congruence].
  destruct (test_plan m); [|simpl in Hin; intuition congruence].
  rewrite in_bind_ret in Hin.
  destruct (String.eqb_spec tgt "esp32") as [->|Hne];
    [|simpl in Hin; intuition congruence].
  destruct (flash_result e) as [[]|]; [|simpl in Hin; intuition congruence..].
  split; [eauto|]. split; [done|].
  rewrite in_bind in Hin. destruct Hin as [H|[_ [_ H]]]; [simpl in H; intuition congruence|].
  rewrite in_bind in H. destruct H as [H|[_ [_ H]]]; [by left|].
  rewrite in_bind in H. destruct H as [H|[bmf [_ H]]]; [by right|].
  rewrite in_bind in H. destruct H as [H|[_ [_ H]]]; [simpl in H; intuition congruence|].
  apply report_all_ok_events in H. intuition congruence.
Qed.

(** The test procedure runs only when the manifest loaded, the target is
    esp32 and flashing returned True. *)
Theorem run_tests_guard dir e :
  In MRunTests (fst (main dir e)) ->
  (exists m, load e = LoadOk m /\ device_target m = Some "esp32"%string)
  /\ flash_result e = Some true.
Proof.
  intros H. destruct (main_events_ok dir e _ H) as [Hc|Hin]; [discriminate|]. clear H.
  all_ok_in Hin.
  destruct (load e) as [msg|m]; [simpl in Hin; intuition congruence|].
  destruct (build_number m) as [bn|]; [|simpl in Hin; intuition congruence].
  destruct (artifact_name m); [|simpl in Hin; intuition congruence].
  destruct (device_target m) as [tgt|] eqn:Ht; [|simpl in Hin; intuition congruence].
  destruct (test_plan m); [|simpl in Hin; intuition congruence].
  rewrite in_bind_ret in Hin.
  destruct (String.eqb_spec tgt "esp32") as [->|Hne]; [|simpl in Hin; intuition congruence].
  destruct (flash_result e) as [[]|]; [|simpl in Hin; intuition congruence..].
  eauto.
Qed.

Lemma ex_run_trace :
  fst (main "results" (ex_env (LoadOk ex_manifest) (Some true)))
  = [MFlash; MReset; MReset; MCapture; MSaveEvidence; MRunTests;
     MReport {| s_status := PASS; s_tests := [mk_test PASS []];
                s_build_number := of_ascii "42"; s_device_target := "esp32" |};
     MExit 0].
Proof. reflexivity. Qed.

Lemma run_tests_guard_witness :
  flash_result (ex_env (LoadOk ex_manifest) (Some true)) = Some true.
Proof.
  apply (run_tests_guard "results" (ex_env (LoadOk ex_manifest) (Some true))).
  rewrite ex_run_trace. simpl. tauto.
Defined.

(** Every reported Run Result has status PASS exactly when the target is
    esp32, flashing returned True and none of the reported outcomes is
    FAIL. *)
Theorem report_status dir e s :
  In (MReport s) (fst (main dir e)) ->
  (s_status s = PASS <->
   (exists m, load e = LoadOk m /\ device_target m = Some "esp32"%string)
   /\ flash_result e = Some true /\ any_fail (s_tests s) = false).
Proof.
  intros H0. destruct (main_events_ok dir e _ H0) as [Hc|H]; [discriminate|]. clear H0.
  all_ok_in H.
  destruct (load e) as [msg|m]; [simpl in H; intuition congruence|].
  destruct (build_number m) as [bn|]; [|simpl in H; intuition congruence].
  destruct (artifact_name m); [|simpl in H; intuition congruence].
  destruct (device_target m) as [tgt|] eqn:Ht; [|simpl in H; intuition congruence].
  destruct (test_plan m); [|simpl in H; intuition congruence].
  rewrite in_bind_ret in H.
  destruct (String.eqb_spec tgt "esp32") as [->|Hne].
  - destruct (flash_result e) as [[]|] eqn:Hf.
    + rewrite in_bind in H. destruct H as [H|[_ [_ H]]]; [simpl in H; intuition congruence|].
      rewrite in_bind in H. destruct H as [H|[_ [_ H]]].
      { apply explicit_reset_events in H. intuition congruence. }
      rewrite in_bind in H. destruct H as [H|[bmf [_ H]]].
      { apply stale_recapture_events in H. intuition congruence. }
      rewrite in_bind in H. destruct H as [H|[_ [_ H]]]; [simpl in H; intuition congruence|].
      apply report_all_ok_events in H.
      destruct H as [H|H]; [|discriminate]. injection H as <-. simpl.
      destruct (any_fail (tests_of e bmf)); simpl.
      * split; [discriminate|]. intros [_ [_ H]]. discriminate.
      * split; [eauto|]. intros _. reflexivity.
    + simpl in H. repeat (destruct H as [H|H]; [try discriminate H|]); [|done].
      injection H as <-. simpl. split; [discriminate|]. intros [_ [H _]]. discriminate.
    + simpl in H. intuition congruence.
  - simpl in H. repeat (destruct H as [H|H]; [try discriminate H|]); [|done].
    injection H as <-. simpl. split; [discriminate|].
    intros [[m' [Hl Ht']] _]. injection Hl as <-. congruence.
Qed.

Lemma report_status_witness :
  (exists m, load (ex_env (LoadOk ex_manifest) (Some true)) = LoadOk m
             /\ device_target m = Some "esp32"%string)
  /\ flash_result (ex_env (LoadOk ex_manifest) (Some true)) = Some true
  /\ any_fail [mk_test PASS []] = false.
Proof.
  apply (report_status "results" (ex_env (LoadOk ex_manifest) (Some true))
           {| s_status := PASS; s_tests := [mk_test PASS []];
              s_build_number := of_ascii "42"; s_device_target := "esp32" |}).
  - rewrite ex_run_trace. simpl. tauto.
  - reflexivity.
Defined.

(** The late boot capture (lines 689-759) happens only after a successful
    flash of an esp32 target, when a port was detected and the flash is
    older than 8 s; the boot evidence is saved only when that capture
    succeeded with non-empty text, and then the save succeeded (otherwise
    the run crashes). *)
Theorem capture_guard dir e :
  (In MCapture (fst (main dir e)) ->
     flash_result e = Some true /\ port_truthy (port2 e) = true /\ stale e = true)
  /\ (In MSaveEvidence (fst (main dir e)) ->
     flash_result e = Some true /\ fst (capture e) = true
     /\ truthy (snd (capture e)) = true /\ evidence_write_ok e = true).
Proof.
  split; intros Hin0;
    (destruct (main_events_ok dir e _ Hin0) as [Hc|Hin]; [discriminate|]).
  - destruct (main_middle dir e MCapture Hin ltac:(tauto)) as [_ [Hf [H|H]]].
    + apply explicit_reset_events in H. intuition congruence.
    + apply stale_recapture_events in H as [_ [Hc _]]. destruct (Hc eq_refl). auto.
  - destruct (main_middle dir e MSaveEvidence Hin ltac:(tauto)) as [_ [Hf [H|H]]].
    + apply explicit_reset_events in H. intuition congruence.
    + apply stale_recapture_events in H as [_ [_ Hs]]. destruct (Hs eq_refl) as [? [? ?]].
      auto.
Qed.

Lemma capture_guard_witness :
  stale (ex_env (LoadOk ex_manifest) (Some true)) = true
  /\ evidence_write_ok (ex_env (LoadOk ex_manifest) (Some true)) = true.
Proof.
  destruct (capture_guard "results" (ex_env (LoadOk ex_manifest) (Some true))) as [Hc Hs].
  split.
  - apply Hc. rewrite ex_run_trace. simpl. tauto.
  - apply Hs. rewrite ex_run_trace. simpl. tauto.
Defined.

End OrchestratorExtra.

(* ------------------------------------------------------------------ *)
(** ** The UTF-8 decoding of the captured bytes                        *)
(* ------------------------------------------------------------------ *)

Module CaptureExtra.
Import Capture.

(** Bytes below 128 decode to themselves: ASCII boot logs are kept as is. *)
Theorem decode_ascii_id bs :
  Forall (fun b => 0 <= b < 128) bs -> decode_utf8_ignore bs = bs.
Proof.
  induction bs as [|b r IH]; intros H; [done|].
  inversion H as [|? ? Hb Hr]; subst. cbn [decode_utf8_ignore].
  destruct (Z.ltb_spec b 128); [|lia]. by rewrite IH.
Qed.

Lemma decode_ascii_id_witness :
  decode_utf8_ignore (of_ascii "rst:0x1") = of_ascii "rst:0x1".
Proof. apply decode_ascii_id. repeat constructor; simpl; lia. Defined.

Definition scalar (c : Z) : Prop := 0 <= c <= 1114111 /\ ~ (55296 <= c <= 57343).

Ltac bounds :=
  unfold cont, in_range in *;
  repeat match goal with
         | H : _ && _ = true |- _ => apply andb_prop in H as [? ?]
         | H : (_ <=? _) = true |- _ => apply Z.leb_le in H
         end.

Lemma land_low b n : 0 <= n -> Z.land b (Z.ones n) = b mod 2 ^ n.
Proof. intros. by apply Z.land_ones. Qed.

Ltac scalar_ok :=
  bounds; unfold scalar;
  change 31 with (Z.ones 5) in *; change 63 with (Z.ones 6) in *;
  change 15 with (Z.ones 4) in *; change 7 with (Z.ones 3) in *;
  rewrite ?land_low by lia; simpl (2 ^ _);
  Z.div_mod_to_equations; lia.

(** The decoded text holds only Unicode scalar values (no surrogate, at
    most U+10FFFF) and has at most as many characters as there were
    bytes. *)
Theorem decode_scalars bs :
  Forall (fun b => 0 <= b <= 255) bs ->
  Forall scalar (decode_utf8_ignore bs)
  /\ (length (decode_utf8_ignore bs) <= length bs)%nat.
Proof.
  intros Hb. rewrite List.Forall_forall in Hb.
  enough (Hgen : forall n bs, (length bs <= n)%nat -> (forall x, In x bs -> 0 <= x <= 255) ->
            Forall scalar (decode_utf8_ignore bs)
            /\ (length (decode_utf8_ignore bs) <= length bs)%nat)
    by (apply (Hgen (length bs)); auto).
  clear bs Hb. intros n. induction n as [|n IH]; intros bs Hn Hb.
  { destruct bs; simpl in *; [split; auto|lia]. }
  destruct bs as [|b0 r0]; [simpl; split; auto|].
  assert (H0 := Hb b0 (or_introl eq_refl)).
  assert (Hsub : forall l, (length l <= n)%nat -> (forall x, In x l -> In x (b0 :: r0)) ->
            Forall scalar (decode_utf8_ignore l) /\ (length (decode_utf8_ignore l) <= length l)%nat).
  { intros l Hl Hin. apply IH; [done|]. intros x Hx. by apply Hb, Hin. }
  simpl in Hn. cbn [decode_utf8_ignore].
  destruct (Z.ltb_spec b0 128).
  { destruct (Hsub r0) as [F L]; [lia|simpl; tauto|]. split; [constructor; [|done]|cbn [length] in *; lia].
    unfold scalar; lia. }
  destruct (in_range 194 223 b0) eqn:R2.
  { destruct r0 as [|b1 r1]; [simpl; split; auto; lia|].
    assert (H1 := Hb b1 (or_intror (or_introl eq_refl))).
    destruct (cont b1) eqn:C1.
    - destruct (Hsub r1) as [F L]; [cbn [length] in *; lia|simpl; tauto|].
      split; [constructor; [scalar_ok|done]|cbn [length] in *; lia].
    - destruct (Hsub (b1 :: r1)) as [F L]; [cbn [length] in *; lia|simpl; tauto|].
      split; [done|cbn [length] in *; lia]. }
  destruct (in_range 224 239 b0) eqn:R3.
  { destruct r0 as [|b1 r1]; [simpl; split; auto; lia|].
    assert (H1 := Hb b1 (or_intror (or_introl eq_refl))).
    destruct (in_range _ _ b1) eqn:C1.
    - destruct r1 as [|b2 r2]; [simpl; split; auto; lia|].
      assert (H2 := Hb b2 (or_intror (or_intror (or_introl eq_refl)))).
      destruct (cont b2) eqn:C2.
      + destruct (Hsub r2) as [F L]; [cbn [length] in *; lia|simpl; tauto|].
        split; [constructor; [|done]|cbn [length] in *; lia].
        destruct (Z.eqb_spec b0 224), (Z.eqb_spec b0 237); scalar_ok.
      + destruct (Hsub (b2 :: r2)) as [F L]; [cbn [length] in *; lia|simpl; tauto|].
        split; [done|cbn [length] in *; lia].
    - destruct (Hsub (b1 :: r1)) as [F L]; [cbn [length] in *; lia|simpl; tauto|].
      split; [done|cbn [length] in *; lia]. }
  destruct (in_range 240 244 b0) eqn:R4.
  { destruct r0 as [|b1 r1]; [simpl; split; auto; lia|].
    assert (H1 := Hb b1 (or_intror (or_introl eq_refl))).
    destruct (in_range _ _ b1) eqn:C1.
    - destruct r1 as [|b2 r2]; [simpl; split; auto; lia|].
      assert (H2 := Hb b2 (or_intror (or_intror (or_introl eq_refl)))).
      destruct (cont b2) eqn:C2.
      + destruct r2 as [|b3 r3]; [simpl; split; auto; lia|].
        assert (H3 := Hb b3 (or_intror (or_intror (or_intror (or_introl eq_refl))))).
        destruct (cont b3) eqn:C3.
        * destruct (Hsub r3) as [F L]; [cbn [length] in *; lia|simpl; tauto|].
          split; [constructor; [|done]|cbn [length] in *; lia].
          destruct (Z.eqb_spec b0 240), (Z.eqb_spec b0 244); scalar_ok.
        * destruct (Hsub (b3 :: r3)) as [F L]; [cbn [length] in *; lia|simpl; tauto|].
          split; [done|cbn [length] in *; lia].
      + destruct (Hsub (b2 :: r2)) as [F L]; [cbn [length] in *; lia|simpl; tauto|].
        split; [done|cbn [length] in *; lia].
    - destruct (Hsub (b1 :: r1)) as [F L]; [cbn [length] in *; lia|simpl; tauto|].
      split; [done|cbn [length] in *; lia]. }
  destruct (Hsub r0) as [F L]; [lia|simpl; tauto|]. split; [done|cbn [length] in *; lia].
Qed.

Lemma decode_scalars_witness :
  decode_utf8_ignore [237; 160; 128; 226; 130; 172] = [8364]
  /\ Forall scalar (decode_utf8_ignore [237; 160; 128; 226; 130; 172]).
Proof.
  split; [reflexivity|].
  exact (proj1 (decode_scalars [237; 160; 128; 226; 130; 172]
                  ltac:(repeat constructor; lia))).
Defined.

End CaptureExtra.

(* ------------------------------------------------------------------ *)
(** ** manifest.py: load_manifest                                      *)
(* ------------------------------------------------------------------ *)

Module ManifestProps.
Import Manifest HardwareProps.
Local Open Scope string_scope.

Lemma find_first {A} (p : A -> bool) l x :
  List.find p l = Some x ->
  exists pre post, l = (pre ++ x :: post)%list /\ p x = true /\ Forall (fun y => p y = false) pre.
Proof.
  induction l as [|y l IH]; simpl; [discriminate|].
  destruct (p y) eqn:Hy.
  - intros [= <-]. exists [], l. split; [done|]. split; [done|]. constructor.
  - intros H. destruct (IH H) as [pre [post [-> [Hx Hpre]]]].
    exists (y :: pre), post. split; [done|]. split; [done|]. by constructor.
Qed.

Definition version_of (kv : list (string * yval)) : yval :=
  match ylookup "manifest_version" kv with Some v => v | None => YNull end.

Definition missing (kv : list (string * yval)) (f : string) : bool :=
  match ylookup f kv with Some _ => false | None => true end.

Lemma load_manifest_map kv :
  kv <> [] ->
  load_manifest true (Some (YMap kv))
  = if negb (eq_one (version_of kv)) then MErr BadVersion
    else match List.find (missing kv) required with
         | Some f => MErr (MissingField f)
         | None => MOk (YMap kv)
         end.
Proof. destruct kv; [done|]. reflexivity. Qed.

(** [load_manifest] succeeds exactly when the file exists and parses to a
    non-empty mapping whose [manifest_version] equals 1 (as Python's [==]
    sees it: [1], [true] or [1.0]) and which has the four keys build,
    device, test_plan and timestamps; it then returns the parsed
    document unchanged. *)
Theorem load_ok_iff path_exists parsed d :
  load_manifest path_exists parsed = MOk d <->
  path_exists = true /\ parsed = Some d /\
  exists kv, d = YMap kv /\ kv <> [] /\ eq_one (version_of kv) = true
    /\ Forall (fun f => ylookup f kv <> None) required.
Proof.
  split.
  - destruct path_exists; [|discriminate]. destruct parsed as [v|]; [|discriminate].
    destruct v as [| | | | | |kv];
      try (unfold load_manifest; cbn [negb];
           destruct (negb (ytruthy _)); discriminate).
    destruct kv as [|k kv']; [discriminate|].
    rewrite load_manifest_map by discriminate.
    destruct (eq_one (version_of (k :: kv'))) eqn:He; [|discriminate]. cbn [negb].
    destruct (List.find (missing (k :: kv')) required) eqn:Hf; [discriminate|].
    intros [= <-]. split; [done|]. split; [done|]. exists (k :: kv').
    split; [done|]. split; [discriminate|]. split; [done|].
    apply find_none_iff in Hf. rewrite List.Forall_forall in Hf |- *.
    intros f Hin. specialize (Hf f Hin). unfold missing in Hf.
    destruct (ylookup f (k :: kv')); discriminate.
  - intros [-> [-> [kv [-> [Hne [Hv Hall]]]]]].
    rewrite load_manifest_map by done. rewrite Hv. cbn [negb].
    replace (List.find (missing kv) required) with (@None string); [done|].
    symmetry. apply find_none_iff. rewrite List.Forall_forall in Hall |- *.
    intros f Hin. specialize (Hall f Hin). unfold missing.
    destruct (ylookup f kv); [done|congruence].
Qed.

Definition ex_doc (version : yval) : yval :=
  YMap [("manifest_version", version); ("build", YMap [("build_number", YInt 42)]);
        ("device", YMap [("target", YStr (of_ascii "esp32"))]);
        ("test_plan", YList [YStr (of_ascii "uart_boot")]);
        ("timestamps", YMap [])].

Lemma load_ok_iff_witness :
  load_manifest true (Some (ex_doc (YBool true))) = MOk (ex_doc (YBool true)).
Proof.
  apply load_ok_iff. split; [done|]. split; [done|].
  eexists. split; [reflexivity|]. split; [discriminate|]. split; [reflexivity|].
  repeat constructor; discriminate.
Defined.

(** A [Missing required field] error names the first of build, device,
    test_plan, timestamps (in that order) that the mapping lacks; the
    version check passed before. *)
Theorem load_missing_field path_exists parsed f :
  load_manifest path_exists parsed = MErr (MissingField f) ->
  exists kv pre post, parsed = Some (YMap kv) /\ eq_one (version_of kv) = true
    /\ required = (pre ++ f :: post)%list /\ ylookup f kv = None
    /\ Forall (fun g => ylookup g kv <> None) pre.
Proof.
  destruct path_exists; [|discriminate]. destruct parsed as [v|]; [|discriminate].
  destruct v as [| | | | | |kv];
    try (unfold load_manifest; cbn [negb]; destruct (negb (ytruthy _)); discriminate).
  destruct kv as [|k kv']; [discriminate|].
  rewrite load_manifest_map by discriminate.
  destruct (eq_one (version_of (k :: kv'))) eqn:He; [|discriminate]. cbn [negb].
  destruct (List.find (missing (k :: kv')) required) as [g|] eqn:Hf; [|discriminate].
  intros [= <-]. apply find_first in Hf as [pre [post [Hr [Hg Hpre]]]].
  exists (k :: kv'), pre, post. split; [done|]. split; [done|]. split; [done|].
  split.
  - unfold missing in Hg. by destruct (ylookup g (k :: kv')).
  - rewrite List.Forall_forall in Hpre |- *. intros x Hx. specialize (Hpre x Hx).
    unfold missing in Hpre. destruct (ylookup x (k :: kv')); discriminate.
Qed.

Definition ex_partial : yval :=
  YMap [("manifest_version", YInt 1); ("build", YMap []); ("timestamps", YMap [])].

Lemma load_missing_field_witness :
  exists kv pre post, Some ex_partial = Some (YMap kv) /\ eq_one (version_of kv) = true
    /\ required = (pre ++ "device" :: post)%list /\ ylookup "device" kv = None
    /\ Forall (fun g => ylookup g kv <> None) pre.
Proof. apply (load_missing_field true). vm_compute. reflexivity. Defined.

(** [load_manifest] raises an exception other than [ManifestError] exactly
    when the file exists and either the YAML parser fails or the document
    is non-empty but not a mapping ([data.get] then raises
    AttributeError). *)
Theorem load_raise_iff path_exists parsed :
  load_manifest path_exists parsed = MRaise <->
  path_exists = true /\
  (parsed = None \/ exists v, parsed = Some v /\ ytruthy v = true /\ forall kv, v <> YMap kv).
Proof.
  split.
  - intros H. destruct path_exists; [|discriminate H]. split; [done|].
    destruct parsed as [v|]; [|by left]. right. exists v. split; [done|].
    unfold load_manifest in H. cbn [negb] in H.
    destruct (ytruthy v) eqn:Ht; cbn [negb] in H; [|discriminate H].
    split; [done|]. destruct v as [| | | | | |kv]; try (intros kv'; discriminate).
    cbv zeta in H. destruct (negb (eq_one _)); [discriminate H|].
    destruct (List.find _ required); discriminate H.
  - intros [-> [->|[v [-> [Ht Hnm]]]]]; [done|].
    unfold load_manifest. cbn [negb]. rewrite Ht. cbn [negb].
    destruct v as [| | | | | |kv]; try done. by destruct (Hnm kv).
Qed.

Lemma load_raise_iff_witness :
  load_manifest true (Some (YList [YStr (of_ascii "build")])) = MRaise.
Proof.
  apply load_raise_iff. split; [done|]. right.
  eexists. split; [reflexivity|]. split; [reflexivity|]. intros kv; discriminate.
Defined.

End ManifestProps.

(* ------------------------------------------------------------------ *)
(** ** results.py: write_junit                                          *)
(* ------------------------------------------------------------------ *)

Module JunitProps.
Import Invoker Junit.

Lemma starts_with_app p s : starts_with p (p ++ s) = true.
Proof. induction p as [|c p IH]; simpl; [done|]. by rewrite Z.eqb_refl. Qed.

Lemma contains_starts p s : starts_with p s = true -> contains p s = true.
Proof. destruct s; simpl; intros ->; reflexivity. Qed.

Lemma contains_app_r p a s : contains p s = true -> contains p (a ++ s) = true.
Proof.
  induction a as [|c a IH]; simpl; [done|]. intros H. rewrite IH; [|done].
  apply orb_true_r.
Qed.

Lemma contains_prefix p b : contains p (p ++ b) = true.
Proof. apply contains_starts, starts_with_app. Qed.

Lemma junit_case_fail t :
  is_FAIL t = true ->
  exists a b, junit_case t
    = a ++ (of_ascii "<failure>" ++ default [] (j_failure t) ++ of_ascii "</failure>") ++ b.
Proof.
  intros H. unfold junit_case. rewrite H.
  exists (of_ascii "    <testcase name=" ++ quote ++ default (of_ascii "unknown") (j_name t)
          ++ quote ++ of_ascii " classname=" ++ quote ++ of_ascii "HardwareTest" ++ quote
          ++ of_ascii ">" ++ nl ++ of_ascii "      "),
         (nl ++ of_ascii "    </testcase>" ++ nl).
  rewrite <- !app_assoc. reflexivity.
Qed.

(** The failure text of every FAIL test is written verbatim, with no XML
    escaping, between [<failure>] and [</failure>] in junit.xml. *)
Theorem junit_failure_verbatim ts t :
  In t ts -> is_FAIL t = true ->
  contains (of_ascii "<failure>" ++ default [] (j_failure t) ++ of_ascii "</failure>")
    (junit_xml ts) = true.
Proof.
  intros Hin Hf. apply in_split in Hin as [l1 [l2 ->]].
  destruct (junit_case_fail t Hf) as [a [b Hc]].
  set (P := of_ascii "<failure>" ++ default [] (j_failure t) ++ of_ascii "</failure>") in *.
  unfold junit_xml. rewrite map_app, concat_app. cbn [map concat]. rewrite Hc.
  rewrite <- !app_assoc.
  apply contains_app_r, contains_app_r, contains_app_r, contains_prefix.
Qed.

Definition ex_fail : jtest :=
  {| j_name := Some (of_ascii "test_execution"); j_status := Some (of_ascii "FAIL");
     j_failure := Some (of_ascii "a < b & c") |}.

Lemma junit_failure_verbatim_witness :
  contains (of_ascii "<failure>a < b & c</failure>") (junit_xml [ex_fail]) = true.
Proof.
  change (of_ascii "<failure>a < b & c</failure>")
    with (of_ascii "<failure>" ++ default [] (j_failure ex_fail) ++ of_ascii "</failure>").
  apply junit_failure_verbatim; [by left|reflexivity].
Defined.

Definition skip_as_pass (t : test) : test :=
  match t_status t with SKIP => mk_test PASS (t_failure t) | _ => t end.

Lemma is_FAIL_skip t : is_FAIL (entry (skip_as_pass t)) = is_FAIL (entry t).
Proof. destruct t as [[] f]; reflexivity. Qed.

Lemma junit_case_skip t : junit_case (entry (skip_as_pass t)) = junit_case (entry t).
Proof. destruct t as [[] f]; reflexivity. Qed.

(** junit.xml does not distinguish SKIP from PASS: replacing every SKIP
    outcome by a PASS with the same text gives the same file (no
    [<skipped/>] element, and SKIP is not counted as a failure). *)
Theorem junit_skip_as_pass ts :
  junit_xml (map entry (map skip_as_pass ts)) = junit_xml (map entry ts).
Proof.
  assert (H1 : length (List.filter is_FAIL (map entry (map skip_as_pass ts)))
               = length (List.filter is_FAIL (map entry ts))).
  { induction ts as [|t ts IH]; [done|]. cbn [map List.filter].
    rewrite is_FAIL_skip. destruct (is_FAIL (entry t)); simpl; congruence. }
  assert (H2 : concat (map junit_case (map entry (map skip_as_pass ts)))
               = concat (map junit_case (map entry ts))).
  { clear H1. induction ts as [|t ts IH]; [done|]. cbn [map concat].
    by rewrite junit_case_skip, IH. }
  unfold junit_xml. rewrite H1, H2, !length_map. reflexivity.
Qed.

End JunitProps.
